(** * Resolve-suite: the API client module and the server bootstrap

    A shallow embedding of the frontend API client (axios instance,
    request/response interceptors, endpoint functions) and of the three
    Express bootstrap files, followed by the properties of the
    specification that concern them.

    Conventions of the embedding.
    - JavaScript values that travel through the client (response bodies,
      arguments, thrown payloads) are a small tagged union, [Js.value].
      Numbers are integer valued; strings are sequences of bytes, which
      agrees with JavaScript's [startsWith] and concatenation on the ASCII
      literals the program uses.
    - [localStorage] and [API.defaults.headers.common] are finite maps from
      strings to strings.
    - An [async] function is a state-passing computation over the browser
      state that either returns a value (the promise resolves) or raises
      (the promise rejects).
    - [console.log]/[console.error] calls are not part of the state, and
      writes to the storage always succeed. *)

From Stdlib Require Import String Ascii ZArith List Bool Lia.
From stdpp Require Import base strings gmap pretty.

Local Open Scope string_scope.
Local Open Scope list_scope.
Local Open Scope Z_scope.
Local Set Warnings "-register-all".

(** ** JavaScript values *)

Module Js.

Inductive value : Type :=
| VUndefined
| VNull
| VBool (b : bool)
| VNum (n : Z)
| VStr (s : string)
| VObj (fields : list (string * value)).

(** ToBoolean: what [if (v)], [!v] and [a || b] look at. *)
Definition truthy (v : value) : bool :=
  match v with
  | VUndefined | VNull => false
  | VBool b => b
  | VNum n => negb (n =? 0)
  | VStr s => negb (String.eqb s "")
  | VObj _ => true
  end.

(** ToString: template literals and [URLSearchParams.append]. *)
Definition toString (v : value) : string :=
  match v with
  | VUndefined => "undefined"
  | VNull => "null"
  | VBool true => "true"
  | VBool false => "false"
  | VNum n => pretty n
  | VStr s => s
  | VObj _ => "[object Object]"
  end.

Fixpoint assoc (k : string) (fields : list (string * value)) : value :=
  match fields with
  | [] => VUndefined
  | (k', v) :: rest => if String.eqb k k' then v else assoc k rest
  end.

(** [v.k]: [None] is the TypeError raised when [v] is null or undefined.
    None of the property names the program reads is a built-in property of
    a primitive, so a primitive answers undefined. *)
Definition member (v : value) (k : string) : option value :=
  match v with
  | VUndefined | VNull => None
  | VObj fields => Some (assoc k fields)
  | _ => Some VUndefined
  end.

(** [v?.k] *)
Definition optMember (v : value) (k : string) : value :=
  match member v k with
  | Some x => x
  | None => VUndefined
  end.

(** [a || b] *)
Definition logicalOr (a b : value) : value := if truthy a then a else b.

(** A parameter with the default [= {}]: the default replaces undefined only. *)
Definition defaultEmpty (v : value) : value :=
  match v with
  | VUndefined => VObj []
  | _ => v
  end.

End Js.

Import Js.

(** ** The API client (frontend module) *)

Module Client.

Record response : Type := mkResponse { status : Z; data : value }.

Record request : Type := mkRequest {
  method : string;
  url : string;
  params : option value;          (* axios [config.params] *)
  body : value;                   (* request payload *)
  headers : gmap string string
}.

(** What the network answers to one request. *)
Inductive outcome : Type :=
| Replied (r : response)
| NoResponse (message : string).

(** Values that can be raised. *)
Inductive exn : Type :=
| AxiosError (message : string) (resp : option response)
| Error (message : string)        (* [new Error(message)] *)
| TypeError (property : string)   (* property read on null or undefined *)
| Thrown (v : value).             (* [throw] of a value that is no Error *)

Definition response_of (error : exn) : option response :=
  match error with
  | AxiosError _ r => r
  | _ => None
  end.

(** [error.message] *)
Definition message_of (error : exn) : value :=
  match error with
  | AxiosError m _ => VStr m
  | Error m => VStr m
  | TypeError p => VStr ("Cannot read properties of undefined (reading '" +:+ p +:+ "')")
  | Thrown v => optMember v "message"
  end.

(** [error.response?.status === code] *)
Definition statusIs (error : exn) (code : Z) : bool :=
  match response_of error with
  | Some r => status r =? code
  | None => false
  end.

(** [error.response?.data] *)
Definition response_data (error : exn) : value :=
  match response_of error with
  | Some r => data r
  | None => VUndefined
  end.

(** The browser state the module reads and writes. *)
Record world : Type := mkWorld {
  localStorage : gmap string string;
  defaultsCommon : gmap string string;   (* [API.defaults.headers.common] *)
  navigations : list string;             (* assignments to [window.location.href], oldest first *)
  wire : list request                    (* requests handed to the network, oldest first *)
}.

Inductive result (A : Type) : Type :=
| Returned (a : A)
| Raised (e : exn).
Arguments Returned {A} a.
Arguments Raised {A} e.

Definition M (A : Type) : Type := world -> world * result A.

Definition ret {A} (a : A) : M A := fun w => (w, Returned a).

Definition throw {A} (e : exn) : M A := fun w => (w, Raised e).

Definition bind {A B} (m : M A) (k : A -> M B) : M B :=
  fun w =>
    match m w with
    | (w', Returned a) => k a w'
    | (w', Raised e) => (w', Raised e)
    end.

(** [try { m } catch (error) { handler }] *)
Definition tryCatch {A} (m : M A) (handler : exn -> M A) : M A :=
  fun w =>
    match m w with
    | (w', Returned a) => (w', Returned a)
    | (w', Raised e) => handler e w'
    end.

Notation "'let*' x ':=' c1 'in' c2" := (bind c1 (fun x => c2))
  (at level 10, x pattern, c1 at level 100, c2 at level 200).
Notation "c1 '>>' c2" := (bind c1 (fun _ => c2))
  (at level 100, c2 at level 200, right associativity).

(** [v.k] inside a computation *)
Definition read (v : value) (k : string) : M value :=
  match member v k with
  | Some x => ret x
  | None => throw (TypeError k)
  end.

Definition getItem (k : string) : M (option string) :=
  fun w => (w, Returned (localStorage w !! k)).

Definition setItem (k v : string) : M unit :=
  fun w => (mkWorld (<[k := v]> (localStorage w)) (defaultsCommon w)
                    (navigations w) (wire w), Returned tt).

Definition removeItem (k : string) : M unit :=
  fun w => (mkWorld (delete k (localStorage w)) (defaultsCommon w)
                    (navigations w) (wire w), Returned tt).

(** [delete API.defaults.headers.common[k]] *)
Definition deleteDefaultHeader (k : string) : M unit :=
  fun w => (mkWorld (localStorage w) (delete k (defaultsCommon w))
                    (navigations w) (wire w), Returned tt).

(** [window.location.href = target] *)
Definition navigate (target : string) : M unit :=
  fun w => (mkWorld (localStorage w) (defaultsCommon w)
                    (navigations w ++ [target]) (wire w), Returned tt).

Definition setHeader (k v : string) (config : request) : request :=
  mkRequest (method config) (url config) (params config) (body config)
            (<[k := v]> (headers config)).

(** The value the request interceptor gives the Authorization header. *)
Definition authorizationValue (token : string) : string :=
  if String.prefix "Bearer " token then token else "Bearer " +:+ token.

(** First argument of [API.interceptors.request.use]. *)
Definition requestInterceptor (config : request) : M request :=
  let* token := getItem "token" in
  match token with
  | Some token =>
      if truthy (VStr token)
      then ret (setHeader "Authorization" (authorizationValue token) config)
      else ret config
  | None => ret config
  end.

(** Second argument of [API.interceptors.request.use]. *)
Definition requestRejected (error : exn) : M request := throw error.

Definition handleUnauthorized : M unit :=
  removeItem "token" >>
  removeItem "user" >>
  deleteDefaultHeader "Authorization" >>
  navigate "/login".

(** The two arguments of [API.interceptors.response.use]. *)
Definition responseFulfilled (r : response) : M response := ret r.

Definition responseRejected (error : exn) : M response :=
  (if statusIs error 401 then handleUnauthorized else ret tt) >>
  throw error.

(** [URLSearchParams.prototype.toString]: the form-urlencoded serializer.
    Letters, digits and [*-._] stay, a space becomes [+], every other byte
    is percent-encoded. *)
Definition hexDigit (n : N) : ascii :=
  if (n <? 10)%N then ascii_of_N (48 + n) else ascii_of_N (55 + n).

Definition formSafe (c : ascii) : bool :=
  let n := N_of_ascii c in
  ((48 <=? n) && (n <=? 57) || (65 <=? n) && (n <=? 90) || (97 <=? n) && (n <=? 122)
   || (n =? 42) || (n =? 45) || (n =? 46) || (n =? 95))%N.

Fixpoint formEncode (s : string) : string :=
  match s with
  | EmptyString => EmptyString
  | String c rest =>
      let n := N_of_ascii c in
      if formSafe c then String c (formEncode rest)
      else if (n =? 32)%N then String "+" (formEncode rest)
      else String "%" (String (hexDigit (n / 16)) (String (hexDigit (n mod 16))
                                                          (formEncode rest)))
  end.

Fixpoint URLSearchParams_toString (entries : list (string * string)) : string :=
  match entries with
  | [] => ""
  | [(k, v)] => formEncode k +:+ "=" +:+ formEncode v
  | (k, v) :: rest =>
      formEncode k +:+ "=" +:+ formEncode v +:+ "&" +:+ URLSearchParams_toString rest
  end.

(** *** States reached by the teardown paths *)

Definition sent (w : world) (r : request) : world :=
  mkWorld (localStorage w) (defaultsCommon w) (navigations w) (wire w ++ [r])%list.

(** The state after [handleUnauthorized]. *)
Definition tornDown (w : world) : world :=
  mkWorld (delete "user" (delete "token" (localStorage w)))
          (delete "Authorization" (defaultsCommon w))
          (navigations w ++ ["/login"])%list
          (wire w).

Section Network.

(** The network and the servers behind it. *)
Variable backend : request -> outcome.

(** Headers set on the instance by [axios.create]. *)
Definition instanceHeaders : gmap string string :=
  {[ "Content-Type" := "application/json" ]}.

(** Headers of the request and of the instance override the common defaults. *)
Definition mergeConfig (config : request) : M request :=
  fun w =>
    (w, Returned (mkRequest (method config) (url config) (params config) (body config)
                            (headers config ∪ instanceHeaders ∪ defaultsCommon w))).

Definition send (config : request) : M outcome :=
  fun w => (mkWorld (localStorage w) (defaultsCommon w) (navigations w)
                    (wire w ++ [config]), Returned (backend config)).

(** axios settles a reply by its status: 2xx resolves, anything else rejects
    with an error that carries the response. *)
Definition accepted (r : response) : bool :=
  (200 <=? status r) && (status r <? 300).

Definition statusError (r : response) : exn :=
  AxiosError ("Request failed with status code " +:+ pretty (status r)) (Some r).

Definition settle (o : outcome) : M response :=
  match o with
  | Replied r =>
      if accepted r then responseFulfilled r else responseRejected (statusError r)
  | NoResponse message => responseRejected (AxiosError message None)
  end.

(** One call on the shared instance: [API.get], [API.post], ... *)
Definition API_request (config : request) : M response :=
  let* merged := mergeConfig config in
  let* outgoing := requestInterceptor merged in
  let* answer := send outgoing in
  settle answer.

(** The request that reaches the network for [config] in state [w]. *)
Definition outgoing (w : world) (config : request) : request :=
  match (let* merged := mergeConfig config in requestInterceptor merged) w with
  | (_, Returned r) => r
  | (_, Raised _) => config
  end.

Definition API_get (path : string) (query : option value) : M response :=
  API_request (mkRequest "get" path query VUndefined ∅).

Definition API_post (path : string) (payload : value) : M response :=
  API_request (mkRequest "post" path None payload ∅).

(** *** Organization endpoints *)

Definition getOrganizations : M value :=
  tryCatch
    (let* response := API_get "/organizations" None in
     ret (data response))
    (fun error => throw error).

Definition registerOrganization (organizationData : value) : M value :=
  tryCatch
    (let* response := API_post "/organizations/register" organizationData in
     let* organizationId := read (data response) "organizationId" in
     if negb (truthy organizationId)
     then throw (Error "Organization ID not received in response")
     else ret (data response))
    (fun error =>
       let msg := optMember (response_data error) "msg" in
       if truthy msg
       then throw (Error (toString msg))
       else throw (Error "Failed to register organization. Please try again.")).

(** *** Authentication endpoints *)

Definition loginUser (email password organizationId : value) : M value :=
  tryCatch
    (let* response :=
       API_post "/auth/login"
                (VObj [("email", email); ("password", password);
                       ("organizationId", organizationId)]) in
     let* token := read (data response) "token" in
     let* role := read (data response) "role" in
     let* userId := read (data response) "userId" in
     let* firstName := read (data response) "firstName" in
     let* lastName := read (data response) "lastName" in
     let* departmentId := read (data response) "departmentId" in
     let fullToken := "Bearer " +:+ toString token in
     setItem "token" fullToken >>
     ret (VObj [("token", VStr fullToken);
                ("role", role);
                ("email", email);
                ("userId", userId);
                ("firstName", firstName);
                ("lastName", lastName);
                ("organizationId", organizationId);
                ("departmentId", departmentId);
                ("isAuthenticated", VBool true)]))
    (fun error => throw error).

Definition logoutUser : M value :=
  tryCatch
    (API_post "/auth/logout" VUndefined >>
     removeItem "token" >>
     removeItem "user" >>
     deleteDefaultHeader "Authorization" >>
     ret VUndefined)
    (fun error =>
       removeItem "token" >>
       removeItem "user" >>
       deleteDefaultHeader "Authorization" >>
       throw error).

(** *** Complaint, workflow and notification endpoints *)

(** [throw error.response?.data || error.message] *)
Definition payloadOrMessage (error : exn) : exn :=
  Thrown (logicalOr (response_data error) (message_of error)).

Definition getComplaints (filters : value) : M value :=
  let filters := defaultEmpty filters in
  tryCatch
    (let* response := API_get "/complaints" (Some filters) in
     ret (data response))
    (fun error => throw (payloadOrMessage error)).

Definition getWorkflowForComplaint (complaintId : value) : M value :=
  tryCatch
    (let* response :=
       API_get ("/workflows/complaint/" +:+ toString complaintId) None in
     ret (data response))
    (fun error =>
       if statusIs error 404 then ret VNull
       else throw (payloadOrMessage error)).

Definition getNotifications (params : value) : M value :=
  let params := defaultEmpty params in
  tryCatch
    (let* response := API_get "/notifications" (Some params) in
     ret (data response))
    (fun error => throw error).

(** *** Feedback endpoints *)

Definition getFeedbackByComplaint (complaintId : value) : M value :=
  tryCatch
    (let* response :=
       API_get ("/feedback/complaint/" +:+ toString complaintId) None in
     ret (data response))
    (fun error =>
       if statusIs error 404 then ret VNull
       else throw error).

(** [if (params.k) queryParams.append(k, params.k)] *)
Definition appendIfSet (params : value) (k : string)
    (queryParams : list (string * string)) : M (list (string * string)) :=
  let* v := read params k in
  ret (if truthy v then (queryParams ++ [(k, toString v)])%list else queryParams).

Definition getAllFeedback (params : value) : M value :=
  let params := defaultEmpty params in
  tryCatch
    (let* q := appendIfSet params "page" [] in
     let* q := appendIfSet params "limit" q in
     let* q := appendIfSet params "rating" q in
     let* q := appendIfSet params "department" q in
     let* response := API_get ("/feedback?" +:+ URLSearchParams_toString q) None in
     ret (data response))
    (fun error => throw error).

Definition getFeedbackByDepartment (departmentId params : value) : M value :=
  let params := defaultEmpty params in
  tryCatch
    (let* q := appendIfSet params "page" [] in
     let* q := appendIfSet params "limit" q in
     let* q := appendIfSet params "rating" q in
     let* response :=
       API_get ("/feedback/department/" +:+ toString departmentId +:+ "?"
                +:+ URLSearchParams_toString q) None in
     ret (data response))
    (fun error => throw error).

(** *** The remaining calls of the instance, and the bare [axios.get] *)

Definition API_put (path : string) (payload : value) : M response :=
  API_request (mkRequest "put" path None payload ∅).

Definition API_delete (path : string) : M response :=
  API_request (mkRequest "delete" path None VUndefined ∅).

(** [API.post(url, data, { headers })] *)
Definition API_postWith (path : string) (payload : value)
    (requestHeaders : gmap string string) : M response :=
  API_request (mkRequest "post" path None payload requestHeaders).

(** [axios.get(url, { params })] on the library itself: none of the
    interceptors and defaults of the instance apply.  The headers the
    library adds on its own are left out. *)
Definition axios_get (path : string) (query : value) : M response :=
  let* answer := send (mkRequest "get" path (Some query) VUndefined ∅) in
  match answer with
  | Replied r => if accepted r then ret r else throw (statusError r)
  | NoResponse message => throw (AxiosError message None)
  end.

(** *** Configuration *)

Definition getApiBaseUrl (NODE_ENV REACT_APP_API_URL : option string) : string :=
  if decide (NODE_ENV = Some "production") then "/api"
  else match REACT_APP_API_URL with
       | Some u => if truthy (VStr u) then u else "http://localhost:5000/api"
       | None => "http://localhost:5000/api"
       end.

Definition OPENCAGE_API_URL : string :=
  "https://api.opencagedata.com/geocode/v1/json".

(** *** Helpers of the remaining endpoint functions *)

(** [encodeURIComponent]: letters, digits and [-_.!~*'()] stay, every
    other byte is percent-encoded. *)
Definition uriUnreserved (c : ascii) : bool :=
  let n := N_of_ascii c in
  ((48 <=? n) && (n <=? 57) || (65 <=? n) && (n <=? 90) || (97 <=? n) && (n <=? 122)
   || (n =? 45) || (n =? 95) || (n =? 46) || (n =? 33) || (n =? 126)
   || (n =? 42) || (n =? 39) || (n =? 40) || (n =? 41))%N.

Fixpoint encodeURIComponent (s : string) : string :=
  match s with
  | EmptyString => EmptyString
  | String c rest =>
      let n := N_of_ascii c in
      if uriUnreserved c then String c (encodeURIComponent rest)
      else String "%" (String (hexDigit (n / 16)) (String (hexDigit (n mod 16))
                                                          (encodeURIComponent rest)))
  end.

(** [error.msg]: no error object of the client has such a property. *)
Definition msg_of (error : exn) : value :=
  match error with
  | Thrown v => optMember v "msg"
  | _ => VUndefined
  end.

(** [new Error(v)]: the message is the string of [v], empty for undefined. *)
Definition newError (v : value) : exn :=
  match v with
  | VUndefined => Error ""
  | _ => Error (toString v)
  end.

(** [throw error.response?.data?.msg || fallback] *)
Definition serverMsgOr (fallback : string) (error : exn) : exn :=
  Thrown (logicalOr (optMember (response_data error) "msg") (VStr fallback)).

(** Writing a member of an object under construction: an existing key keeps
    its place and takes the new value, a new key goes last. *)
Fixpoint setMember (k : string) (v : value) (fields : list (string * value))
    : list (string * value) :=
  match fields with
  | [] => [(k, v)]
  | (k', v') :: rest =>
      if String.eqb k k' then (k, v) :: rest else (k', v') :: setMember k v rest
  end.

Fixpoint indexed (i : nat) (s : string) : list (string * value) :=
  match s with
  | EmptyString => []
  | String c rest => (pretty i, VStr (String c EmptyString)) :: indexed (S i) rest
  end.

(** Own enumerable properties, as the spread [...v] sees them. *)
Definition ownEntries (v : value) : list (string * value) :=
  match v with
  | VObj fields => fields
  | VStr s => indexed 0 s
  | _ => []
  end.

(** [{ ...literal, ...v }] *)
Definition spread (literal : list (string * value)) (v : value)
    : list (string * value) :=
  fold_left (fun acc kv => setMember (fst kv) (snd kv) acc) (ownEntries v) literal.

(** The argument of [createComplaint]: a plain value, or a [FormData]
    whose entries are kept as members. *)
Inductive complaintPayload : Type :=
| Plain (v : value)
| FormData (entries : list (string * value)).

Definition payloadBody (p : complaintPayload) : value :=
  match p with
  | Plain v => v
  | FormData entries => VObj entries
  end.

(** *** Organization endpoints, continued *)

Definition fetchOrganizationById (id : value) : M value :=
  tryCatch
    (let* response := API_get ("/organizations/" +:+ toString id) None in
     ret (data response))
    (fun error => throw error).

Definition checkOrganizationName (name : value) : M value :=
  tryCatch
    (let* response :=
       API_get ("/organizations/check-name/" +:+ encodeURIComponent (toString name))
               None in
     ret (data response))
    (fun error => throw error).

(** *** Authentication endpoints, continued *)

Definition signupUser (userData : value) : M value :=
  tryCatch
    (let* response := API_post "/auth/signup" userData in
     ret (data response))
    (fun error => throw error).

Definition registerSuperAdmin (superAdminData : value) : M value :=
  tryCatch
    (let* response := API_post "/auth/register-superadmin" superAdminData in
     ret (data response))
    (fun error => throw error).

Definition requestPasswordReset (email : value) : M value :=
  tryCatch
    (let* response := API_post "/auth/forgot-password" (VObj [("email", email)]) in
     ret (data response))
    (fun error => throw (payloadOrMessage error)).

Definition verifyOTP (email otp : value) : M value :=
  tryCatch
    (let* response :=
       API_post "/auth/verify-otp" (VObj [("email", email); ("otp", otp)]) in
     ret (data response))
    (fun error => throw (payloadOrMessage error)).

Definition resetPassword (email password : value) : M value :=
  tryCatch
    (let* response :=
       API_post "/auth/reset-password"
                (VObj [("email", email); ("password", password)]) in
     ret (data response))
    (fun error => throw (payloadOrMessage error)).

(** *** User endpoints *)

Definition addUser (userData : value) : M value :=
  tryCatch
    (let* response := API_post "/users/add" userData in
     ret (data response))
    (fun error => throw error).

Definition fetchUsers : M value :=
  tryCatch
    (let* response := API_get "/users" None in
     ret (data response))
    (fun error => throw error).

Definition deleteUser (userId : value) : M value :=
  tryCatch
    (let* response := API_delete ("/users/" +:+ toString userId) in
     ret (data response))
    (fun error => throw error).

Definition fetchDepartmentEligibleUsers : M value :=
  tryCatch
    (let* response := API_get "/users/department-eligible" None in
     ret (data response))
    (fun error => throw (payloadOrMessage error)).

(** *** Department endpoints *)

Definition createDepartment (departmentData : value) : M value :=
  tryCatch
    (let* response := API_post "/departments" departmentData in
     ret (data response))
    (fun error => throw (payloadOrMessage error)).

Definition getAllDepartments : M value :=
  tryCatch
    (let* response := API_get "/departments" None in
     ret (data response))
    (fun error =>
       if statusIs error 403
       then throw (Error "You do not have permission to view departments")
       else throw error).

Definition getDepartmentById (id : value) : M value :=
  tryCatch
    (let* response := API_get ("/departments/" +:+ toString id) None in
     ret (data response))
    (fun error => throw (payloadOrMessage error)).

Definition updateDepartment (id departmentData : value) : M value :=
  tryCatch
    (let* response := API_put ("/departments/" +:+ toString id) departmentData in
     ret (data response))
    (fun error => throw (payloadOrMessage error)).

Definition deleteDepartment (id : value) : M value :=
  tryCatch
    (let* response := API_delete ("/departments/" +:+ toString id) in
     ret (data response))
    (fun error =>
       let errorMessage :=
         logicalOr (optMember (response_data error) "msg") (message_of error) in
       throw (newError errorMessage)).

(** [userIds] is only forwarded. *)
Definition assignUsersToDepartment (departmentId userIds : value) : M value :=
  tryCatch
    (let* response :=
       API_post ("/departments/" +:+ toString departmentId +:+ "/users")
                (VObj [("userIds", userIds)]) in
     ret (data response))
    (fun error => throw (payloadOrMessage error)).

Definition getDepartmentUsers (departmentId : value) : M value :=
  tryCatch
    (let* response :=
       API_get ("/departments/" +:+ toString departmentId +:+ "/users") None in
     ret (data response))
    (fun error => throw (payloadOrMessage error)).

Definition removeUserFromDepartment (departmentId userId : value) : M value :=
  tryCatch
    (let* response :=
       API_delete ("/departments/" +:+ toString departmentId +:+ "/users/"
                   +:+ toString userId) in
     ret (data response))
    (fun error => throw (payloadOrMessage error)).

(** *** Complaint endpoints, continued *)

Definition createComplaint (complaintData : complaintPayload) : M value :=
  tryCatch
    (let config : gmap string string :=
       {[ "Content-Type" :=
            match complaintData with
            | FormData _ => "multipart/form-data"
            | Plain _ => "application/json"
            end ]} in
     let* response := API_postWith "/complaints" (payloadBody complaintData) config in
     ret (data response))
    (fun error => throw error).

Definition getComplaintById (id : value) : M value :=
  tryCatch
    (let* response := API_get ("/complaints/" +:+ toString id) None in
     ret (data response))
    (fun error => throw (serverMsgOr "Failed to fetch complaint details" error)).

Definition updateComplaintStatus (id statusData : value) : M value :=
  tryCatch
    (let* response :=
       API_put ("/complaints/" +:+ toString id +:+ "/status") statusData in
     ret (data response))
    (fun error => throw (payloadOrMessage error)).

Definition fetchComplaintComments (complaintId : value) : M value :=
  tryCatch
    (let* response :=
       API_get ("/complaints/" +:+ toString complaintId +:+ "/comments") None in
     ret (data response))
    (fun error => throw (serverMsgOr "Failed to fetch comments" error)).

Definition addCommentToComplaint (complaintId commentData : value) : M value :=
  tryCatch
    (let* response :=
       API_post ("/complaints/" +:+ toString complaintId +:+ "/comments")
                commentData in
     ret (data response))
    (fun error => throw (serverMsgOr "Failed to add comment" error)).

Definition escalateComplaint (id escalationData : value) : M value :=
  tryCatch
    (let* response :=
       API_post ("/complaints/" +:+ toString id +:+ "/escalate") escalationData in
     ret (data response))
    (fun error => throw (payloadOrMessage error)).

Definition assignComplaint (id assignmentData : value) : M value :=
  tryCatch
    (let* response :=
       API_put ("/complaints/" +:+ toString id +:+ "/assign") assignmentData in
     ret (data response))
    (fun error => throw (payloadOrMessage error)).

(** *** Complaint type endpoints *)

(** [throw error.response?.data || error.msg] *)
Definition payloadOrMsg (error : exn) : exn :=
  Thrown (logicalOr (response_data error) (msg_of error)).

Definition createComplaintType (typeData : value) : M value :=
  tryCatch
    (let* response := API_post "/complaints/types" typeData in
     ret (data response))
    (fun error => throw (payloadOrMsg error)).

Definition getComplaintTypes : M value :=
  tryCatch
    (let* response := API_get "/complaints/types" None in
     ret (data response))
    (fun error => throw (payloadOrMsg error)).

Definition updateComplaintType (id complaintTypeData : value) : M value :=
  tryCatch
    (let* response :=
       API_put ("/complaints/types/" +:+ toString id) complaintTypeData in
     ret (data response))
    (fun error => throw (payloadOrMessage error)).

Definition deleteComplaintType (id : value) : M value :=
  tryCatch
    (let* response := API_delete ("/complaints/types/" +:+ toString id) in
     ret (data response))
    (fun error => throw (payloadOrMessage error)).

(** *** Workflow endpoints, continued *)

Definition createWorkflow (workflowData : value) : M value :=
  tryCatch
    (let* response := API_post "/workflows" workflowData in
     ret (data response))
    (fun error => throw (payloadOrMessage error)).

Definition getWorkflows : M value :=
  tryCatch
    (let* response := API_get "/workflows" None in
     ret (data response))
    (fun error => throw (payloadOrMessage error)).

Definition getWorkflowById (id : value) : M value :=
  tryCatch
    (let* response := API_get ("/workflows/" +:+ toString id) None in
     ret (data response))
    (fun error => throw (payloadOrMessage error)).

Definition getWorkflowsByDepartment (departmentId : value) : M value :=
  tryCatch
    (let* response :=
       API_get ("/workflows/department/" +:+ toString departmentId) None in
     ret (data response))
    (fun error => throw (payloadOrMessage error)).

Definition getWorkflowsByComplaintType (complaintTypeId : value) : M value :=
  tryCatch
    (let* response :=
       API_get ("/workflows/complaint-type/" +:+ toString complaintTypeId) None in
     ret (data response))
    (fun error => throw (payloadOrMessage error)).

Definition updateWorkflowStage (complaintId stageData : value) : M value :=
  tryCatch
    (let* response :=
       API_put ("/workflows/complaint/" +:+ toString complaintId +:+ "/stage")
               stageData in
     ret (data response))
    (fun error => throw (payloadOrMessage error)).

Definition updateWorkflow (id workflowData : value) : M value :=
  tryCatch
    (let* response := API_put ("/workflows/" +:+ toString id) workflowData in
     ret (data response))
    (fun error => throw (payloadOrMessage error)).

Definition deleteWorkflow (id : value) : M value :=
  tryCatch
    (let* response := API_delete ("/workflows/" +:+ toString id) in
     ret (data response))
    (fun error => throw (payloadOrMessage error)).

Definition getWorkflowTemplates : M value :=
  tryCatch
    (let* response := API_get "/workflows/templates" None in
     ret (data response))
    (fun error => throw (payloadOrMessage error)).

Definition getWorkflowTemplatesByCategory (category : value) : M value :=
  tryCatch
    (let* response :=
       API_get ("/workflows/templates/category/" +:+ toString category) None in
     ret (data response))
    (fun error => throw (payloadOrMessage error)).

Definition getWorkflowTemplateById (id : value) : M value :=
  tryCatch
    (let* response := API_get ("/workflows/templates/" +:+ toString id) None in
     ret (data response))
    (fun error => throw (payloadOrMessage error)).

Definition createWorkflowFromTemplate (templateId customizations : value) : M value :=
  tryCatch
    (let* response :=
       API_post "/workflows/from-template"
                (VObj (spread [("templateId", templateId)] customizations)) in
     ret (data response))
    (fun error => throw (payloadOrMessage error)).

Definition importWorkflowTemplates (templates : value) : M value :=
  tryCatch
    (let* response := API_post "/workflows/import-templates" templates in
     ret (data response))
    (fun error => throw (payloadOrMessage error)).

(** *** Notification endpoints, continued *)

Definition getUnreadNotificationCount : M value :=
  tryCatch
    (let* response := API_get "/notifications/unread-count" None in
     read (data response) "count")
    (fun error => throw error).

Definition markNotificationAsRead (notificationId : value) : M value :=
  tryCatch
    (let* response :=
       API_put ("/notifications/" +:+ toString notificationId +:+ "/read")
               VUndefined in
     ret (data response))
    (fun error => throw error).

Definition markAllNotificationsAsRead : M value :=
  tryCatch
    (let* response := API_put "/notifications/read-all" VUndefined in
     ret (data response))
    (fun error => throw error).

Definition deleteNotification (notificationId : value) : M value :=
  tryCatch
    (let* response := API_delete ("/notifications/" +:+ toString notificationId) in
     ret (data response))
    (fun error => throw error).

(** *** Feedback endpoints, continued *)

Definition submitFeedback (feedbackData : value) : M value :=
  tryCatch
    (let* response := API_post "/feedback" feedbackData in
     ret (data response))
    (fun error => throw error).

Definition canProvideFeedback (complaintId : value) : M value :=
  tryCatch
    (let* response :=
       API_get ("/feedback/can-provide/" +:+ toString complaintId) None in
     ret (data response))
    (fun error => throw error).

Definition getFeedbackStats : M value :=
  tryCatch
    (let* response := API_get "/feedback/stats" None in
     ret (data response))
    (fun error => throw error).

Definition getFeedbackStatsByDepartment (departmentId : value) : M value :=
  tryCatch
    (let* response :=
       API_get ("/feedback/department/" +:+ toString departmentId +:+ "/stats")
               None in
     ret (data response))
    (fun error => throw error).

(** *** Address lookup *)

Definition fetchAddressSuggestions (REACT_APP_OPENCAGE_API_KEY : option string)
    (input : value) : M value :=
  tryCatch
    (let* response :=
       axios_get OPENCAGE_API_URL
                 (VObj [("q", input);
                        ("key", match REACT_APP_OPENCAGE_API_KEY with
                                | Some k => VStr k
                                | None => VUndefined
                                end);
                        ("limit", VNum 5)]) in
     read (data response) "results")
    (fun error =>
       throw (Error "Failed to fetch address suggestions. Please try again.")).

End Network.

(** *** The shape shared by most endpoint functions

    One call on the instance for [config]; the body of an accepted reply is
    returned, any failure is raised after [onError] reshaped it.  The state
    is the one the interceptors leave: the request is on the wire, and the
    session is torn down when the reply had status 401. *)
Definition oneCall (backend : request -> outcome) (onError : exn -> exn)
    (config : request) (w : world) : world * result value :=
  let afterSend := sent w (outgoing w config) in
  match backend (outgoing w config) with
  | Replied r =>
      if accepted r then (afterSend, Returned (data r))
      else (if status r =? 401 then tornDown afterSend else afterSend,
            Raised (onError (statusError r)))
  | NoResponse message => (afterSend, Raised (onError (AxiosError message None)))
  end.

(** A result that, when it is a failure, is a thrown truthy value. *)
Definition raisesTruthy (r : result value) : Prop :=
  match r with
  | Returned _ => True
  | Raised (Thrown v) => truthy v = true
  | Raised _ => False
  end.

(** How often a character occurs in a string. *)
Fixpoint occurrences (c : ascii) (s : string) : nat :=
  match s with
  | EmptyString => 0%nat
  | String c' rest =>
      ((if Ascii.eqb c c' then 1 else 0) + occurrences c rest)%nat
  end.

Create HintDb endpoints.
#[export] Hint Unfold
  getOrganizations fetchOrganizationById checkOrganizationName
  signupUser registerSuperAdmin requestPasswordReset verifyOTP resetPassword
  addUser fetchUsers deleteUser fetchDepartmentEligibleUsers
  createDepartment getDepartmentById updateDepartment
  assignUsersToDepartment getDepartmentUsers removeUserFromDepartment
  getComplaints updateComplaintStatus escalateComplaint assignComplaint
  updateComplaintType deleteComplaintType
  createWorkflow getWorkflows getWorkflowById getWorkflowsByDepartment
  getWorkflowsByComplaintType updateWorkflowStage updateWorkflow deleteWorkflow
  getWorkflowTemplates getWorkflowTemplatesByCategory getWorkflowTemplateById
  createWorkflowFromTemplate importWorkflowTemplates
  getNotifications markNotificationAsRead markAllNotificationsAsRead
  deleteNotification submitFeedback canProvideFeedback getFeedbackStats
  getFeedbackStatsByDepartment createComplaintType getComplaintTypes
  getComplaintById fetchComplaintComments addCommentToComplaint
  getAllDepartments deleteDepartment
  API_get API_post API_put API_delete API_postWith : endpoints.

End Client.

(** ** The application server (three bootstrap variants) *)

Module Server.

Inductive routeGroup : Type :=
| organizationRoutes | authRoutes | userRoutes | departmentRoutes
| complaintRoutes | complaintTypeRoutes | workflowRoutes
| notificationRoutes | feedbackRoutes.

#[global] Instance routeGroup_eq_dec : EqDecision routeGroup.
Proof. solve_decision. Defined.

Inductive handler : Type :=
| Passing (name : string)     (* body parsers: they hand the request on *)
| Cors                        (* [cors(options)] *)
| Static (directory : string) (* [express.static] *)
| Router (group : routeGroup)
| Inline (name : string).     (* a function written in the bootstrap file *)

Inductive layer : Type :=
| Use (h : handler)                       (* [app.use(h)] *)
| UseAt (prefix : string) (h : handler)   (* [app.use(prefix, h)] *)
| Get (path : string) (h : handler)       (* [app.get(path, h)] *)
| UseError (h : handler).                 (* [app.use((err, req, res, next) => ...)] *)

Definition routeMounts : list layer :=
  [ UseAt "/api/organizations" (Router organizationRoutes);
    UseAt "/api/auth" (Router authRoutes);
    UseAt "/api/users" (Router userRoutes);
    UseAt "/api/departments" (Router departmentRoutes);
    UseAt "/api/complaints/types" (Router complaintTypeRoutes);
    UseAt "/api/complaints" (Router complaintRoutes);
    UseAt "/api/workflows" (Router workflowRoutes);
    UseAt "/api/notifications" (Router notificationRoutes);
    UseAt "/api/feedback" (Router feedbackRoutes) ].


(** Second file: health check, frontend bundle in production, error and
    unmatched-route handlers. *)
Definition app2 (NODE_ENV : option string) : list layer :=
  [ Use (Passing "express.json");
    Use (Passing "express.urlencoded");
    Use Cors;
    UseAt "/uploads" (Static "backend/uploads");
    Get "/api/health" (Inline "health") ]
  ++ routeMounts
  ++ (if decide (NODE_ENV = Some "production")
      then [ Use (Static "frontend/build"); Get "*" (Inline "index.html") ]
      else [])
  ++ [ UseError (Inline "errorHandler");
       Use (Inline "notFound") ].



(** Express matches paths case-insensitively. *)
Definition lowerAscii (c : ascii) : ascii :=
  let n := N_of_ascii c in
  if ((65 <=? n) && (n <=? 90))%N then ascii_of_N (n + 32) else c.

Fixpoint lower (s : string) : string :=
  match s with
  | EmptyString => EmptyString
  | String c rest => String (lowerAscii c) (lower rest)
  end.

(** [p] is a prefix of [s] that ends at a segment boundary: the whole of
    [s], or followed by a slash. *)
Fixpoint segmentPrefix (p s : string) : bool :=
  match p, s with
  | EmptyString, EmptyString => true
  | EmptyString, String c _ => Ascii.eqb c "/"
  | String _ _, EmptyString => false
  | String a p', String b s' => Ascii.eqb a b && segmentPrefix p' s'
  end.

(** A mount at [prefix] takes the paths under that prefix. *)
Definition mountMatches (prefix path : string) : bool :=
  segmentPrefix (lower prefix) (lower path).

Fixpoint endsWithSlash (s : string) : bool :=
  match s with
  | EmptyString => false
  | String c EmptyString => Ascii.eqb c "/"
  | String _ rest => endsWithSlash rest
  end.

Fixpoint dropLast (s : string) : string :=
  match s with
  | EmptyString => EmptyString
  | String _ EmptyString => EmptyString
  | String c rest => String c (dropLast rest)
  end.

(** A route takes its own path, where one slash at the end is optional:
    a pattern without it also takes the path with it, a pattern with it
    also takes the path without it.  The pattern [*] takes every path. *)
Definition routeMatches (pattern path : string) : bool :=
  String.eqb pattern "*"
  || String.eqb (lower path) (lower pattern)
  || (if endsWithSlash pattern
      then String.eqb (lower path) (dropLast (lower pattern))
      else String.eqb (lower path) (lower pattern +:+ "/")).

(** Methods are compared without regard to case. *)
Definition readMethod (m : string) : bool :=
  String.eqb (lower m) "get" || String.eqb (lower m) "head".

(** The preflight requests, which [cors] answers itself. *)
Definition preflight (m : string) : bool :=
  String.eqb (lower m) "options".

(** Whether a handler takes a request it is offered, or hands it on.  The
    body parsers hand on every request whose body they can read; [cors]
    ends the preflight requests and hands on the others; the static
    middleware answers a GET or HEAD request for which its directory has
    something to serve ([files directory path]) and hands on every other;
    a router or a function of the bootstrap file takes the request. *)
Definition answers (files : string -> string -> bool)
    (h : handler) (m path : string) : bool :=
  match h with
  | Passing _ => false
  | Cors => preflight m
  | Static directory => readMethod m && files directory path
  | Router _ | Inline _ => true
  end.

(** The first handler of the stack that takes the request.  Error
    middleware is skipped while no error is pending. *)
Fixpoint dispatch (files : string -> string -> bool)
    (stack : list layer) (m path : string) : option handler :=
  match stack with
  | [] => None
  | Use h :: rest =>
      if answers files h m path then Some h else dispatch files rest m path
  | UseAt prefix h :: rest =>
      if mountMatches prefix path && answers files h m path then Some h
      else dispatch files rest m path
  | Get pattern h :: rest =>
      if readMethod m && routeMatches pattern path && answers files h m path
      then Some h
      else dispatch files rest m path
  | UseError _ :: rest => dispatch files rest m path
  end.


(** *** The error handling middleware of the second file *)

Record reply : Type := mkReply {
  statusCode : value;                 (* argument of [res.status] *)
  jsonBody : list (string * value)    (* members of the body sent by [res.json] *)
}.

(** [JSON.stringify] leaves out the members whose value is undefined. *)
Definition stringifyMembers (fields : list (string * value)) : list (string * value) :=
  List.filter (fun kv => match snd kv with VUndefined => false | _ => true end) fields.

Definition hasMember (k : string) (fields : list (string * value)) : bool :=
  existsb (fun kv => String.eqb (fst kv) k) fields.

(** [None] is the TypeError of reading a property of null or undefined. *)
Definition errorHandler (NODE_ENV : option string) (err : value) : option reply :=
  status ← member err "status";
  message ← member err "message";
  stack ← (if decide (NODE_ENV = Some "development")
           then member err "stack" else Some VUndefined);
  Some (mkReply (logicalOr status (VNum 500))
                (stringifyMembers
                   [ ("message", logicalOr message (VStr "Something went wrong!"));
                     ("error", stack) ])).



End Server.

Import Client Server.

(** * Properties of the API client *)

(** ** Strings *)

Lemma prefix_append (p r : string) : String.prefix p (p +:+ r) = true.
Proof.
  induction p as [|a p IH]; simpl.
  - now destruct r.
  - destruct (ascii_dec a a); [exact IH | congruence].
Qed.

Lemma prefix_split (p s : string) :
  String.prefix p s = true -> exists r, s = p +:+ r.
Proof.
  revert s. induction p as [|a p IH]; intros s H.
  - exists s. reflexivity.
  - destruct s as [|b s]; simpl in H; [discriminate|].
    destruct (ascii_dec a b) as [->|]; [|discriminate].
    destruct (IH _ H) as [r ->]. exists r. reflexivity.
Qed.

Lemma truthy_string (s : string) : truthy (VStr s) = true <-> s <> "".
Proof.
  simpl. destruct (String.eqb_spec s ""); simpl; split; intros; congruence.
Qed.

(** ** The request interceptor *)

Lemma authorizationValue_prefixed (t : string) :
  String.prefix "Bearer " (authorizationValue t) = true.
Proof.
  unfold authorizationValue.
  destruct (String.prefix "Bearer " t) eqn:E; [exact E | apply prefix_append].
Qed.

Lemma authorizationValue_idempotent (t : string) :
  authorizationValue (authorizationValue t) = authorizationValue t.
Proof.
  unfold authorizationValue at 1.
  now rewrite authorizationValue_prefixed.
Qed.

Lemma requestInterceptor_token (w : world) (config : request) (t : string) :
  localStorage w !! "token" = Some t -> t <> "" ->
  requestInterceptor config w
  = (w, Returned (setHeader "Authorization" (authorizationValue t) config)).
Proof.
  intros Ht Hne. unfold requestInterceptor, bind, getItem. rewrite Ht.
  apply truthy_string in Hne. rewrite Hne. reflexivity.
Qed.

Lemma requestInterceptor_no_token (w : world) (config : request) :
  localStorage w !! "token" = None \/ localStorage w !! "token" = Some "" ->
  requestInterceptor config w = (w, Returned config).
Proof.
  intros [Ht|Ht]; unfold requestInterceptor, bind, getItem; rewrite Ht; reflexivity.
Qed.

Lemma prefix_append_cancel (p q s : string) :
  String.prefix (p +:+ q) (p +:+ s) = String.prefix q s.
Proof.
  induction p as [|a p IH]; simpl; [reflexivity|].
  destruct (ascii_dec a a); [exact IH | congruence].
Qed.

Lemma prefix_of_longer (p q s : string) :
  String.prefix p s = false -> String.prefix (p +:+ q) s = false.
Proof.
  intros H. destruct (String.prefix (p +:+ q) s) eqn:E; [|reflexivity].
  destruct (prefix_split _ _ E) as [r ->].
  assert (Happ : forall a b c : string, (a +:+ b) +:+ c = a +:+ (b +:+ c)).
  { intros a b c. induction a as [|x a IH]; [reflexivity|].
    change (String x ((a +:+ b) +:+ c) = String x (a +:+ (b +:+ c))).
    now rewrite IH. }
  rewrite Happ, prefix_append in H. discriminate.
Qed.

(** The header is doubly prefixed exactly when the stored token is. *)
Lemma authorizationValue_double (t : string) :
  String.prefix "Bearer Bearer " (authorizationValue t)
  = String.prefix "Bearer Bearer " t.
Proof.
  unfold authorizationValue.
  destruct (String.prefix "Bearer " t) eqn:E; [reflexivity|].
  change (String.prefix ("Bearer " +:+ "Bearer ") ("Bearer " +:+ t)
          = String.prefix ("Bearer " +:+ "Bearer ") t).
  rewrite prefix_append_cancel, E.
  symmetry. now apply prefix_of_longer.
Qed.

(** C1, as amended: for every non-empty persisted token [t] the request
    interceptor leaves the state alone and sets the Authorization header of
    the outgoing request to [t] when [t] starts with ["Bearer "] and to
    ["Bearer " + t] otherwise.  The header therefore starts with the bearer
    prefix, and it carries that prefix exactly once unless the stored token
    itself begins with two of them; it is the prefix followed by a raw
    part, the token being that raw part or the header itself.  The header
    computation is idempotent, and so is the interceptor on the request it
    produced. *)
Theorem request_interceptor_authorization
    (w : world) (config : request) (t : string) :
  localStorage w !! "token" = Some t -> t <> "" ->
  exists config' header,
    requestInterceptor config w = (w, Returned config')
    /\ headers config' !! "Authorization" = Some header
    /\ header = (if String.prefix "Bearer " t then t else "Bearer " +:+ t)
    /\ String.prefix "Bearer " header = true
    /\ String.prefix "Bearer Bearer " header = String.prefix "Bearer Bearer " t
    /\ (exists raw, header = "Bearer " +:+ raw
                    /\ (t = raw \/ t = "Bearer " +:+ raw))
    /\ authorizationValue (authorizationValue t) = authorizationValue t
    /\ requestInterceptor config' w = (w, Returned config').
Proof.
  intros Ht Hne.
  exists (setHeader "Authorization" (authorizationValue t) config),
         (authorizationValue t).
  split; [now apply requestInterceptor_token|].
  split; [apply lookup_insert_eq|].
  split; [reflexivity|].
  split; [apply authorizationValue_prefixed|].
  split; [apply authorizationValue_double|].
  split.
  - unfold authorizationValue.
    destruct (String.prefix "Bearer " t) eqn:E.
    + destruct (prefix_split _ _ E) as [raw ->]. exists raw. auto.
    + exists t. auto.
  - split; [apply authorizationValue_idempotent|].
    rewrite (requestInterceptor_token w _ t Ht Hne).
    unfold setHeader. simpl. now rewrite insert_insert_eq.
Qed.

Lemma request_interceptor_authorization_witness :
  exists config',
    requestInterceptor (mkRequest "get" "/users" None VUndefined ∅)
                       (mkWorld {[ "token" := "abc" ]} ∅ [] [])
    = (mkWorld {[ "token" := "abc" ]} ∅ [] [], Returned config')
    /\ headers config' !! "Authorization" = Some "Bearer abc"
    /\ String.prefix "Bearer Bearer " "Bearer abc" = false.
Proof.
  destruct (request_interceptor_authorization
              (mkWorld {[ "token" := "abc" ]} ∅ [] [])
              (mkRequest "get" "/users" None VUndefined ∅) "abc")
    as (config' & header & Hrun & Hhdr & Heq & _ & Hone & _).
  - reflexivity.
  - discriminate.
  - exists config'. split; [exact Hrun|].
    change (if String.prefix "Bearer " "abc" then "abc" else "Bearer " +:+ "abc")
      with "Bearer abc" in Heq.
    subst header. split; [exact Hhdr | exact Hone].
Defined.

(** C1, as stated, fails in two places.  On the empty token: the stored
    string [""] does not start with ["Bearer "], yet the interceptor
    returns the request untouched, without the Authorization header
    ["Bearer "].  On a token that begins with the prefix twice: it starts
    with ["Bearer "], so the interceptor sends it as it is, and the header
    carries the prefix twice, not exactly once. *)
Lemma request_interceptor_prefix_failures :
  let config := mkRequest "get" "/users" None VUndefined ∅ in
  (let w := mkWorld {[ "token" := "" ]} ∅ [] [] in
   localStorage w !! "token" = Some ""
   /\ String.prefix "Bearer " "" = false
   /\ requestInterceptor config w = (w, Returned config)
   /\ headers config !! "Authorization" = None
   /\ headers config !! "Authorization" <> Some ("Bearer " +:+ "")
   /\ headers (outgoing w config) !! "Authorization" = None)
  /\ (let w := mkWorld {[ "token" := "Bearer Bearer abc" ]} ∅ [] [] in
      localStorage w !! "token" = Some "Bearer Bearer abc"
      /\ requestInterceptor config w
         = (w, Returned (setHeader "Authorization" "Bearer Bearer abc" config))
      /\ headers (setHeader "Authorization" "Bearer Bearer abc" config)
           !! "Authorization" = Some "Bearer Bearer abc"
      /\ String.prefix "Bearer Bearer " "Bearer Bearer abc" = true
      /\ headers (outgoing w config) !! "Authorization" = Some "Bearer Bearer abc").
Proof.
  repeat split; try reflexivity. discriminate.
Qed.

(** ** One call on the shared instance *)

Section Calls.

Variable backend : request -> outcome.

Lemma prepare_total (w : world) (config : request) :
  (let* merged := mergeConfig config in requestInterceptor merged) w
  = (w, Returned (outgoing w config)).
Proof.
  unfold outgoing, mergeConfig, requestInterceptor, getItem, bind.
  destruct (localStorage w !! "token") as [t|]; [|reflexivity].
  destruct (truthy (VStr t)); reflexivity.
Qed.

Lemma API_request_run (w : world) (config : request) :
  API_request backend config w
  = settle (backend (outgoing w config)) (sent w (outgoing w config)).
Proof.
  pose proof (prepare_total w config) as H.
  unfold API_request, bind in *.
  destruct (mergeConfig config w) as [w1 [merged|e]]; [|discriminate].
  destruct (requestInterceptor merged w1) as [w2 [out|e]]; [|discriminate].
  injection H as -> ->. reflexivity.
Qed.

Lemma handleUnauthorized_run (w : world) :
  handleUnauthorized w = (tornDown w, Returned tt).
Proof. reflexivity. Qed.

Lemma settle_accepted (w : world) (r : response) :
  accepted r = true -> settle (Replied r) w = (w, Returned r).
Proof. unfold settle, accepted. now intros ->. Qed.

Lemma settle_rejected (w : world) (r : response) :
  accepted r = false ->
  settle (Replied r) w
  = (if status r =? 401 then tornDown w else w, Raised (statusError r)).
Proof.
  unfold settle, accepted. intros ->.
  unfold responseRejected, bind, statusIs. simpl.
  destruct (status r =? 401); reflexivity.
Qed.

Lemma settle_no_response (w : world) (message : string) :
  settle (NoResponse message) w = (w, Raised (AxiosError message None)).
Proof. reflexivity. Qed.

Lemma status_401_rejected (r : response) : status r = 401 -> accepted r = false.
Proof. unfold accepted. now intros ->. Qed.

(** C2, as amended: when the reply to a call on the shared client has
    status 401 (every endpoint function calls through the shared client,
    except [fetchAddressSuggestions]), the response interceptor removes the
    [token] and [user] entries of the storage (nothing is left of a storage
    that held only these), deletes the default Authorization header,
    assigns the login view to the location exactly once, and the call still
    raises the original error, which carries the 401 response. *)
Theorem unauthorized_teardown (w : world) (config : request) (r : response) :
  backend (outgoing w config) = Replied r ->
  status r = 401 ->
  exists w',
    API_request backend config w = (w', Raised (statusError r))
    /\ localStorage w' = delete "user" (delete "token" (localStorage w))
    /\ localStorage w' !! "token" = None
    /\ localStorage w' !! "user" = None
    /\ (dom (localStorage w) ⊆ {[ "token"; "user" ]} -> localStorage w' = ∅)
    /\ defaultsCommon w' !! "Authorization" = None
    /\ navigations w' = navigations w ++ ["/login"]
    /\ response_of (statusError r) = Some r.
Proof.
  intros Hreply H401.
  exists (tornDown (sent w (outgoing w config))).
  rewrite API_request_run, Hreply.
  rewrite settle_rejected by now apply status_401_rejected.
  rewrite H401. simpl.
  repeat split.
  - rewrite lookup_delete_ne by discriminate. apply lookup_delete_eq.
  - apply lookup_delete_eq.
  - intros Hdom. apply map_eq. intros k. rewrite lookup_empty.
    destruct (decide (k = "user")) as [->|Hu]; [apply lookup_delete_eq|].
    rewrite lookup_delete_ne by congruence.
    destruct (decide (k = "token")) as [->|Ht]; [apply lookup_delete_eq|].
    rewrite lookup_delete_ne by congruence.
    apply not_elem_of_dom. intros Hin. apply Hdom in Hin.
    apply elem_of_union in Hin as [Hin|Hin]; apply elem_of_singleton in Hin;
      congruence.
  - apply lookup_delete_eq.
Qed.

End Calls.

Lemma unauthorized_teardown_witness :
  let backend := fun _ : request => Replied (mkResponse 401 VNull) in
  let w := mkWorld {[ "token" := "Bearer abc"; "user" := "ann" ]}
                   {[ "Authorization" := "Bearer abc" ]} [] [] in
  exists w',
    API_request backend (mkRequest "get" "/users" None VUndefined ∅) w
    = (w', Raised (statusError (mkResponse 401 VNull)))
    /\ localStorage w' = ∅
    /\ defaultsCommon w' !! "Authorization" = None
    /\ navigations w' = ["/login"].
Proof.
  intros backend w.
  destruct (unauthorized_teardown backend w
              (mkRequest "get" "/users" None VUndefined ∅) (mkResponse 401 VNull))
    as (w' & Hrun & _ & _ & _ & Hempty & Hdef & Hnav & _).
  - reflexivity.
  - reflexivity.
  - exists w'. repeat split; try assumption.
    apply Hempty. subst w. simpl.
    rewrite dom_insert_L, dom_singleton_L. set_solver.
Defined.

(** C2, as stated, fails for [fetchAddressSuggestions], which calls the
    geocoding service on the bare library: after a reply with status 401
    the [token] and [user] entries and the default Authorization header are
    still there, nothing was assigned to the location, and the caller gets
    a new error in place of the original one. *)
Lemma address_lookup_skips_teardown :
  let reply := mkResponse 401 (VObj [("status", VObj [("message", VStr "invalid API key")])]) in
  let backend := fun _ : request => Replied reply in
  let w := mkWorld {[ "token" := "Bearer abc"; "user" := "ann" ]}
                   {[ "Authorization" := "Bearer abc" ]} [] [] in
  let w' := fst (fetchAddressSuggestions backend None (VStr "Main St") w) in
  localStorage w' !! "token" = Some "Bearer abc"
  /\ localStorage w' !! "user" = Some "ann"
  /\ defaultsCommon w' !! "Authorization" = Some "Bearer abc"
  /\ navigations w' = []
  /\ snd (fetchAddressSuggestions backend None (VStr "Main St") w)
     = Raised (Error "Failed to fetch address suggestions. Please try again.")
  /\ snd (fetchAddressSuggestions backend None (VStr "Main St") w)
     <> Raised (statusError reply).
Proof.
  repeat split; try (vm_compute; reflexivity). vm_compute. discriminate.
Qed.

(** ** Endpoint functions *)

Lemma tryCatch_rethrow {A} (m : M A) (w : world) :
  tryCatch m (fun error => throw error) w = m w.
Proof. unfold tryCatch, throw. now destruct (m w) as [w' [a|e]]. Qed.

Lemma outgoing_line (w : world) (config : request) :
  method (outgoing w config) = method config
  /\ url (outgoing w config) = url config
  /\ params (outgoing w config) = params config
  /\ body (outgoing w config) = body config.
Proof.
  unfold outgoing, mergeConfig, requestInterceptor, getItem, bind.
  destruct (localStorage w !! "token") as [t|]; [|now simpl].
  now destruct (truthy (VStr t)).
Qed.

Lemma settle_wire (o : outcome) (w : world) : wire (fst (settle o w)) = wire w.
Proof.
  destruct o as [r|m]; [|reflexivity].
  destruct (accepted r) eqn:E.
  - now rewrite settle_accepted.
  - rewrite settle_rejected by assumption. now destruct (status r =? 401).
Qed.

(** Taking apart the outcome of the one call an endpoint function makes. *)
Ltac call_cases backend w r m Hacc :=
  rewrite ?tryCatch_rethrow;
  unfold tryCatch, bind, API_post, API_get;
  rewrite API_request_run;
  match goal with
  | |- context [backend ?q] =>
      destruct (backend q) as [r|m];
      [ destruct (accepted r) eqn:Hacc;
        [ rewrite settle_accepted by exact Hacc
        | rewrite settle_rejected by exact Hacc ]
      | rewrite settle_no_response ]
  end.

Section Endpoints.

Variable backend : request -> outcome.

Lemma API_request_wire (w : world) (config : request) :
  wire (fst (API_request backend config w)) = wire w ++ [outgoing w config].
Proof. rewrite API_request_run. now rewrite settle_wire. Qed.

(** C6: after [logoutUser] the [token] and [user] entries are gone from
    the storage and the default Authorization header is deleted, whatever
    the remote call did; the function returns when the call succeeded and
    raises the error of the call when it failed. *)
Theorem logout_clears_session (w : world) :
  let reply :=
    backend (outgoing w (mkRequest "post" "/auth/logout" None VUndefined ∅)) in
  let w' := fst (logoutUser backend w) in
  localStorage w' = delete "user" (delete "token" (localStorage w))
  /\ localStorage w' !! "token" = None
  /\ localStorage w' !! "user" = None
  /\ defaultsCommon w' !! "Authorization" = None
  /\ snd (logoutUser backend w)
     = match reply with
       | Replied r => if accepted r then Returned VUndefined
                      else Raised (statusError r)
       | NoResponse message => Raised (AxiosError message None)
       end.
Proof.
  assert (Hgone : forall m : gmap string string,
             delete "user" (delete "token" m) !! "token" = None).
  { intros m. rewrite lookup_delete_ne by discriminate. apply lookup_delete_eq. }
  assert (Htwice : forall m : gmap string string,
             delete "user" (delete "token" (delete "user" (delete "token" m)))
             = delete "user" (delete "token" m)).
  { intros m. apply map_eq. intros k.
    destruct (decide (k = "user")) as [->|Hu];
      [now rewrite !lookup_delete_eq|rewrite !(lookup_delete_ne _ "user") by congruence].
    destruct (decide (k = "token")) as [->|Ht];
      [now rewrite !lookup_delete_eq|now rewrite !lookup_delete_ne by congruence]. }
  intros reply w'. subst reply w'. unfold logoutUser.
  call_cases backend w r m Hacc.
  - simpl. repeat split; first [apply Hgone | apply lookup_delete_eq].
  - destruct (status r =? 401); simpl;
      rewrite ?Htwice, ?delete_delete_eq;
      repeat split; first [apply Hgone | apply lookup_delete_eq].
  - simpl. repeat split; first [apply Hgone | apply lookup_delete_eq].
Qed.

(** C5: [getWorkflowForComplaint] returns the body of an accepted reply,
    returns null when the reply has status 404, and raises in every other
    case (the payload of the reply, or the message of the error);
    [getFeedbackByComplaint] does the same and raises the error itself. *)
Theorem not_found_is_null (complaintId : value) (w : world) :
  snd (getWorkflowForComplaint backend complaintId w)
  = match backend (outgoing w (mkRequest "get"
                                 ("/workflows/complaint/" +:+ toString complaintId)
                                 None VUndefined ∅)) with
    | Replied r =>
        if accepted r then Returned (data r)
        else if status r =? 404 then Returned VNull
        else Raised (Thrown (logicalOr (data r) (message_of (statusError r))))
    | NoResponse message => Raised (Thrown (VStr message))
    end
  /\ snd (getFeedbackByComplaint backend complaintId w)
     = match backend (outgoing w (mkRequest "get"
                                    ("/feedback/complaint/" +:+ toString complaintId)
                                    None VUndefined ∅)) with
       | Replied r =>
           if accepted r then Returned (data r)
           else if status r =? 404 then Returned VNull
           else Raised (statusError r)
       | NoResponse message => Raised (AxiosError message None)
       end.
Proof.
  split.
  - unfold getWorkflowForComplaint. call_cases backend w r m Hacc.
    + reflexivity.
    + unfold statusIs. simpl. now destruct (status r =? 404).
    + reflexivity.
  - unfold getFeedbackByComplaint. call_cases backend w r m Hacc.
    + reflexivity.
    + unfold statusIs. simpl. now destruct (status r =? 404).
    + reflexivity.
Qed.

(** C4: when the login call is accepted with a body whose [token] member is
    the string [t], [loginUser] stores ["Bearer " + t] under the [token] key
    and returns a session whose [token] is ["Bearer " + t], whose
    [organizationId] is the argument of the caller, whose [isAuthenticated]
    is true, and whose remaining members are those of the reply (and the
    [email] argument). *)
Theorem login_persists_bearer_token
    (w : world) (email password organizationId : value)
    (r : response) (fields : list (string * value)) (t : string) :
  backend (outgoing w (mkRequest "post" "/auth/login" None
                         (VObj [("email", email); ("password", password);
                                ("organizationId", organizationId)]) ∅))
  = Replied r ->
  accepted r = true ->
  data r = VObj fields ->
  assoc "token" fields = VStr t ->
  exists w' session,
    loginUser backend email password organizationId w = (w', Returned (VObj session))
    /\ localStorage w' = <[ "token" := "Bearer " +:+ t ]> (localStorage w)
    /\ localStorage w' !! "token" = Some ("Bearer " +:+ t)
    /\ assoc "token" session = VStr ("Bearer " +:+ t)
    /\ assoc "organizationId" session = organizationId
    /\ assoc "isAuthenticated" session = VBool true
    /\ assoc "email" session = email
    /\ Forall (fun k => assoc k session = assoc k fields)
              ["role"; "userId"; "firstName"; "lastName"; "departmentId"].
Proof.
  intros Hreply Hacc Hdata Htoken.
  unfold loginUser. rewrite tryCatch_rethrow.
  unfold bind, API_post. rewrite API_request_run, Hreply.
  rewrite settle_accepted by exact Hacc.
  rewrite Hdata. unfold read. simpl. rewrite Htoken. simpl.
  eexists _, _. split; [reflexivity|]. simpl.
  repeat split; try apply lookup_insert_eq.
  repeat constructor.
Qed.

End Endpoints.

(** The example of the specification: server token ["abc"], organization 42. *)
Lemma login_persists_bearer_token_witness :
  let reply :=
    mkResponse 200 (VObj [("token", VStr "abc"); ("role", VStr "agent");
                          ("userId", VNum 7); ("firstName", VStr "Ann");
                          ("lastName", VStr "Lee"); ("departmentId", VNum 3)]) in
  let backend := fun _ : request => Replied reply in
  exists w' session,
    loginUser backend (VStr "ann@example.org") (VStr "secret") (VNum 42)
              (mkWorld ∅ ∅ [] [])
    = (w', Returned (VObj session))
    /\ localStorage w' !! "token" = Some "Bearer abc"
    /\ assoc "token" session = VStr "Bearer abc"
    /\ assoc "organizationId" session = VNum 42
    /\ assoc "isAuthenticated" session = VBool true.
Proof.
  intros reply backend.
  destruct (login_persists_bearer_token backend (mkWorld ∅ ∅ [] [])
              (VStr "ann@example.org") (VStr "secret") (VNum 42) reply
              [("token", VStr "abc"); ("role", VStr "agent");
               ("userId", VNum 7); ("firstName", VStr "Ann");
               ("lastName", VStr "Lee"); ("departmentId", VNum 3)] "abc")
    as (w' & session & Hrun & _ & Hstored & Htok & Horg & Hauth & _).
  - reflexivity.
  - reflexivity.
  - reflexivity.
  - reflexivity.
  - exists w', session. repeat split; assumption.
Defined.

(** C3: [loginUser] prefixes the token of the reply without looking at it.
    A reply whose token already starts with ["Bearer "] leaves a doubly
    prefixed value in the storage, which the request interceptor then sends
    as it is. *)
Lemma login_double_prefix :
  let reply := mkResponse 200 (VObj [("token", VStr "Bearer abc")]) in
  let backend := fun _ : request => Replied reply in
  let w' := fst (loginUser backend (VStr "ann@example.org") (VStr "secret") (VNum 42)
                           (mkWorld ∅ ∅ [] [])) in
  localStorage w' !! "token" = Some "Bearer Bearer abc"
  /\ String.prefix "Bearer Bearer " "Bearer Bearer abc" = true
  /\ headers (outgoing w' (mkRequest "get" "/users" None VUndefined ∅))
       !! "Authorization" = Some "Bearer Bearer abc".
Proof.
  repeat split; vm_compute; reflexivity.
Qed.

Local Abbreviation registrationFallback :=
  (Error "Failed to register organization. Please try again.").

Section Registration.

Variable backend : request -> outcome.

(** Every outcome of [registerOrganization].  An error raised inside the
    [try] block is caught by the [catch] block of the same function. *)
Lemma registerOrganization_outcomes (organizationData : value) (w : world) :
  snd (registerOrganization backend organizationData w)
  = match backend (outgoing w (mkRequest "post" "/organizations/register" None
                                 organizationData ∅)) with
    | Replied r =>
        if accepted r then
          if truthy (optMember (data r) "organizationId")
          then Returned (data r)
          else Raised registrationFallback
        else if truthy (optMember (data r) "msg")
             then Raised (Error (toString (optMember (data r) "msg")))
             else Raised registrationFallback
    | NoResponse _ => Raised registrationFallback
    end.
Proof.
  unfold registerOrganization. call_cases backend w r m Hacc.
  - unfold read, optMember.
    destruct (member (data r) "organizationId") as [v|]; [|reflexivity].
    simpl. destruct (truthy v); reflexivity.
  - unfold response_data. simpl.
    destruct (truthy (optMember (data r) "msg")); reflexivity.
  - reflexivity.
Qed.

(** What holds of C10: a normal return carries a truthy [organizationId]. *)
Lemma registerOrganization_returns (organizationData d : value) (w : world) :
  snd (registerOrganization backend organizationData w) = Returned d ->
  truthy (optMember d "organizationId") = true.
Proof.
  rewrite registerOrganization_outcomes.
  destruct (backend _) as [r|m]; [|discriminate].
  destruct (accepted r).
  - destruct (truthy (optMember (data r) "organizationId")) eqn:E; [|discriminate].
    now intros [= <-].
  - destruct (truthy (optMember (data r) "msg")); discriminate.
Qed.

End Registration.

(** C10: an accepted reply without [organizationId].  The function raises,
    but the error raised in the [try] block is caught by the function's own
    [catch] block and replaced: the caller sees the fallback message, not
    ['Organization ID not received in response']. *)
Lemma register_missing_id_message :
  let backend := fun _ : request => Replied (mkResponse 201 (VObj [("name", VStr "Acme")])) in
  snd (registerOrganization backend (VObj [("name", VStr "Acme")]) (mkWorld ∅ ∅ [] []))
  = Raised (Error "Failed to register organization. Please try again.")
  /\ snd (registerOrganization backend (VObj [("name", VStr "Acme")]) (mkWorld ∅ ∅ [] []))
     <> Raised (Error "Organization ID not received in response").
Proof.
  split; [vm_compute; reflexivity | vm_compute; discriminate].
Qed.

(** ** Query parameters of the list endpoints *)

(** The request of the one call in the goal, with its path and query. *)
Ltac one_request backend w :=
  match goal with
  | |- context [API_request backend ?c w] =>
      exists (outgoing w c);
      split; [ pose proof (API_request_wire backend w c) as H;
               destruct (API_request backend c w) as [w1 [a|e]]; exact H
             | split; apply (outgoing_line w c) ]
  end.

Section Queries.

Variable backend : request -> outcome.

(** C9, as amended: [getComplaints] and [getNotifications] hand the whole
    filter object to the query parameters of the request, untouched.
    [getAllFeedback] builds the query string from the members [page],
    [limit], [rating] and [department] only, each when its value is truthy,
    and [getFeedbackByDepartment] from [page], [limit] and [rating]; no
    other member of the object reaches the request. *)
Theorem list_endpoint_query
    (w : world) (filters departmentId : value) (fields : list (string * value)) :
  let forwarded keys :=
    URLSearchParams_toString
      (map (fun k => (k, toString (assoc k fields)))
           (List.filter (fun k => truthy (assoc k fields)) keys)) in
  let sends (call : M value) (path : string) (query : option value) :=
    exists req, wire (fst (call w)) = wire w ++ [req]
                /\ url req = path /\ params req = query in
  sends (getComplaints backend filters)
        "/complaints" (Some (defaultEmpty filters))
  /\ sends (getNotifications backend filters)
           "/notifications" (Some (defaultEmpty filters))
  /\ sends (getAllFeedback backend (VObj fields))
           ("/feedback?" +:+ forwarded ["page"; "limit"; "rating"; "department"])
           None
  /\ sends (getFeedbackByDepartment backend departmentId (VObj fields))
           ("/feedback/department/" +:+ toString departmentId +:+ "?"
            +:+ forwarded ["page"; "limit"; "rating"])
           None.
Proof.
  intros forwarded sends. subst forwarded sends. cbv beta.
  repeat split.
  - unfold getComplaints, tryCatch, bind, API_get. one_request backend w.
  - unfold getNotifications. rewrite tryCatch_rethrow.
    unfold bind, API_get. one_request backend w.
  - unfold getAllFeedback. rewrite tryCatch_rethrow.
    cbv [defaultEmpty appendIfSet read member bind ret API_get].
    cbn [List.filter map app].
    destruct (truthy (assoc "page" fields)), (truthy (assoc "limit" fields)),
      (truthy (assoc "rating" fields)), (truthy (assoc "department" fields));
      cbn [List.filter map app]; one_request backend w.
  - unfold getFeedbackByDepartment. rewrite tryCatch_rethrow.
    cbv [defaultEmpty appendIfSet read member bind ret API_get].
    cbn [List.filter map app].
    destruct (truthy (assoc "page" fields)), (truthy (assoc "limit" fields)),
      (truthy (assoc "rating" fields));
      cbn [List.filter map app]; one_request backend w.
Qed.

End Queries.

(** C9, as stated, fails for [getAllFeedback]: of the object
    [{ page: 2, status: "open" }] only [page] reaches the request. *)
Lemma all_feedback_drops_other_keys :
  let backend := fun _ : request => Replied (mkResponse 200 (VObj [])) in
  let sentTo :=
    wire (fst (getAllFeedback backend
                 (VObj [("page", VNum 2); ("status", VStr "open")])
                 (mkWorld ∅ ∅ [] []))) in
  map url sentTo = ["/feedback?page=2"]
  /\ map params sentTo = [None]
  /\ map body sentTo = [VUndefined].
Proof.
  repeat split; vm_compute; reflexivity.
Qed.

(** * Properties of the application server *)

(** ** Route registration order *)






(** ** The error handling middleware *)

Lemma member_truthy (err : value) (k : string) :
  truthy err = true -> member err k = Some (optMember err k).
Proof. unfold optMember. destruct err; simpl; intros; congruence. Qed.

Lemma or_fallback_defined (a : value) (s : string) : logicalOr a (VStr s) <> VUndefined.
Proof.
  unfold logicalOr. destruct a; simpl; try discriminate.
  - now destruct b.
  - now destruct (negb _).
  - now destruct (negb _).
Qed.

Lemma stringify_reply (message stack : value) :
  message <> VUndefined ->
  stringifyMembers [("message", message); ("error", stack)]
  = ("message", message)
      :: match stack with VUndefined => [] | _ => [("error", stack)] end.
Proof. intros H. destruct message; try congruence; destruct stack; reflexivity. Qed.

(** C8, as amended: for every error that reaches the middleware, the JSON
    body has an [error] member, the stack of the error, if and only if
    [NODE_ENV] is ['development'] and the error has a stack; in every case
    the body carries [err.message], or the generic message when that is
    falsy, and the status is [err.status], or 500 when that is falsy. *)
Theorem error_handler_reply (NODE_ENV : option string) (err : value) :
  truthy err = true ->
  exists r,
    errorHandler NODE_ENV err = Some r
    /\ (hasMember "error" (jsonBody r) = true
        <-> NODE_ENV = Some "development" /\ optMember err "stack" <> VUndefined)
    /\ (hasMember "error" (jsonBody r) = true
        -> assoc "error" (jsonBody r) = optMember err "stack")
    /\ assoc "message" (jsonBody r)
       = logicalOr (optMember err "message") (VStr "Something went wrong!")
    /\ statusCode r = logicalOr (optMember err "status") (VNum 500).
Proof.
  intros Herr. unfold errorHandler.
  rewrite !(member_truthy err) by exact Herr.
  pose proof (or_fallback_defined (optMember err "message") "Something went wrong!")
    as Hmsg.
  destruct (decide (NODE_ENV = Some "development")) as [Hdev|Hdev];
    cbn [mbind option_bind]; rewrite stringify_reply by exact Hmsg;
    eexists; (split; [reflexivity|]); cbn [jsonBody statusCode].
  - destruct (optMember err "stack"); cbn;
      repeat split; try reflexivity; try discriminate; try tauto;
      intros [_ H]; congruence.
  - cbn. repeat split; try reflexivity; try discriminate. tauto.
Qed.

Lemma error_handler_reply_witness :
  exists r,
    errorHandler (Some "development")
                 (VObj [("message", VStr "boom"); ("status", VNum 422);
                        ("stack", VStr "Error: boom at handler")])
    = Some r
    /\ assoc "error" (jsonBody r) = VStr "Error: boom at handler"
    /\ assoc "message" (jsonBody r) = VStr "boom"
    /\ statusCode r = VNum 422.
Proof.
  destruct (error_handler_reply (Some "development")
              (VObj [("message", VStr "boom"); ("status", VNum 422);
                     ("stack", VStr "Error: boom at handler")]))
    as (r & Hrun & Hiff & Hstack & Hmsg & Hstatus).
  - reflexivity.
  - exists r. repeat split; try assumption.
    apply Hstack. apply Hiff. split; [reflexivity | discriminate].
Defined.

(** C8, as stated, fails outside production: with [NODE_ENV] set to
    ['test'], or not set at all, the mode is not ['production'] and yet the
    body has no [error] member. *)
Lemma error_details_withheld_outside_development :
  let err := VObj [("message", VStr "boom"); ("stack", VStr "Error: boom at handler")] in
  Some "test" <> Some "production"
  /\ errorHandler (Some "test") err
     = Some (mkReply (VNum 500) [("message", VStr "boom")])
  /\ hasMember "error" [("message", VStr "boom")] = false
  /\ (None : option string) <> Some "production"
  /\ errorHandler None err
     = Some (mkReply (VNum 500) [("message", VStr "boom")]).
Proof.
  repeat split; try discriminate; vm_compute; reflexivity.
Qed.

(** * Further properties of the API client *)

(** ** Headers of the outgoing request *)

Section Outgoing.

Variable backend : request -> outcome.

Lemma outgoing_eq (w : world) (config : request) :
  outgoing w config
  = let merged :=
      mkRequest (method config) (url config) (params config) (body config)
                (headers config ∪ instanceHeaders ∪ defaultsCommon w) in
    match localStorage w !! "token" with
    | Some t => if truthy (VStr t)
                then setHeader "Authorization" (authorizationValue t) merged
                else merged
    | None => merged
    end.
Proof.
  unfold outgoing, mergeConfig, requestInterceptor, getItem, bind.
  destruct (localStorage w !! "token") as [t|]; [|reflexivity].
  now destruct (truthy (VStr t)).
Qed.

Lemma merged_authorization (w : world) (config : request) :
  (headers config ∪ instanceHeaders ∪ defaultsCommon w) !! "Authorization"
  = match headers config !! "Authorization" with
    | Some h => Some h
    | None => defaultsCommon w !! "Authorization"
    end.
Proof.
  rewrite !lookup_union. unfold instanceHeaders.
  rewrite lookup_singleton_ne by discriminate.
  destruct (headers config !! "Authorization"),
    (defaultsCommon w !! "Authorization"); reflexivity.
Qed.

Lemma outgoing_authorization (w : world) (config : request) :
  headers (outgoing w config) !! "Authorization"
  = match localStorage w !! "token" with
    | Some t =>
        if String.eqb t ""
        then (headers config ∪ instanceHeaders ∪ defaultsCommon w) !! "Authorization"
        else Some (authorizationValue t)
    | None => (headers config ∪ instanceHeaders ∪ defaultsCommon w) !! "Authorization"
    end.
Proof.
  rewrite outgoing_eq. cbv zeta.
  destruct (localStorage w !! "token") as [t|]; simpl; [|reflexivity].
  destruct (String.eqb t ""); simpl; [reflexivity | apply lookup_insert_eq].
Qed.

Lemma outgoing_content_type (w : world) (config : request) :
  headers (outgoing w config) !! "Content-Type"
  = match headers config !! "Content-Type" with
    | Some c => Some c
    | None => Some "application/json"
    end.
Proof.
  assert (Hct : (headers config ∪ instanceHeaders ∪ defaultsCommon w) !! "Content-Type"
                = match headers config !! "Content-Type" with
                  | Some c => Some c
                  | None => Some "application/json"
                  end).
  { rewrite !lookup_union. unfold instanceHeaders. rewrite lookup_singleton_eq.
    destruct (headers config !! "Content-Type"),
      (defaultsCommon w !! "Content-Type"); reflexivity. }
  rewrite outgoing_eq. cbv zeta.
  destruct (localStorage w !! "token") as [t|]; simpl; [|exact Hct].
  destruct (String.eqb t ""); simpl; [exact Hct|].
  rewrite lookup_insert_ne by discriminate. exact Hct.
Qed.

(** A non-empty stored token decides the Authorization header of every
    request of the instance, over a header of the request itself and over
    the common default; without such a token the header of the request
    stands, then the common default.  The Content-Type is the one of the
    request, else [application/json]. *)
Theorem outgoing_headers (w : world) (config : request) :
  let fallback :=
    match headers config !! "Authorization" with
    | Some h => Some h
    | None => defaultsCommon w !! "Authorization"
    end in
  headers (outgoing w config) !! "Authorization"
  = match localStorage w !! "token" with
    | Some t => if String.eqb t "" then fallback else Some (authorizationValue t)
    | None => fallback
    end
  /\ headers (outgoing w config) !! "Content-Type"
     = match headers config !! "Content-Type" with
       | Some c => Some c
       | None => Some "application/json"
       end.
Proof.
  intros fallback. subst fallback.
  rewrite outgoing_authorization, outgoing_content_type, merged_authorization.
  split; reflexivity.
Qed.

(** ** State and result of one call *)

(** What a call on the instance leaves behind: the request on the wire;
    storage, default headers and location are touched only by a reply with
    status 401.  Statuses such as 403, 404 or 500 and failures without a
    reply leave the session as it was. *)
Theorem API_request_state (w : world) (config : request) :
  fst (API_request backend config w)
  = match backend (outgoing w config) with
    | Replied r =>
        if status r =? 401 then tornDown (sent w (outgoing w config))
        else sent w (outgoing w config)
    | NoResponse _ => sent w (outgoing w config)
    end.
Proof.
  rewrite API_request_run.
  destruct (backend (outgoing w config)) as [r|m]; [|reflexivity].
  destruct (accepted r) eqn:Hacc.
  - rewrite settle_accepted by exact Hacc.
    destruct (Z.eqb_spec (status r) 401) as [E|]; [|reflexivity].
    unfold accepted in Hacc. rewrite E in Hacc. discriminate.
  - rewrite settle_rejected by exact Hacc. now destruct (status r =? 401).
Qed.

Lemma oneCall_spec (onError : exn -> exn) (config : request) (w : world) :
  tryCatch (let* response := API_request backend config in ret (data response))
           (fun error => throw (onError error)) w
  = oneCall backend onError config w.
Proof.
  unfold tryCatch, bind, oneCall. rewrite API_request_run.
  destruct (backend (outgoing w config)) as [r|m].
  - destruct (accepted r) eqn:Hacc.
    + now rewrite settle_accepted.
    + rewrite settle_rejected by exact Hacc. reflexivity.
  - reflexivity.
Qed.

End Outgoing.

(** ** The endpoint functions, by error policy *)

Local Abbreviation GET path := (mkRequest "get" path None VUndefined ∅).
Local Abbreviation DELETE path := (mkRequest "delete" path None VUndefined ∅).
Local Abbreviation POST path payload := (mkRequest "post" path None payload ∅).
Local Abbreviation PUT path payload := (mkRequest "put" path None payload ∅).

Ltac table_rows backend policy :=
  repeat constructor; autounfold with endpoints; cbv zeta;
  apply (oneCall_spec backend policy).

Section Policies.

Variable backend : request -> outcome.

(** These functions make one call with the method, path and payload listed,
    return the body of an accepted reply, and raise the error of the call
    itself, so that the caller still sees the response and its status. *)
Theorem rethrowing_endpoints (a : value) (w : world) :
  Forall (fun '(call, config) => call w = oneCall backend (fun e => e) config w)
    [ (getOrganizations backend, GET "/organizations");
      (fetchOrganizationById backend a, GET ("/organizations/" +:+ toString a));
      (checkOrganizationName backend a,
       GET ("/organizations/check-name/" +:+ encodeURIComponent (toString a)));
      (signupUser backend a, POST "/auth/signup" a);
      (registerSuperAdmin backend a, POST "/auth/register-superadmin" a);
      (addUser backend a, POST "/users/add" a);
      (fetchUsers backend, GET "/users");
      (deleteUser backend a, DELETE ("/users/" +:+ toString a));
      (getNotifications backend a,
       mkRequest "get" "/notifications" (Some (defaultEmpty a)) VUndefined ∅);
      (markNotificationAsRead backend a,
       PUT ("/notifications/" +:+ toString a +:+ "/read") VUndefined);
      (markAllNotificationsAsRead backend, PUT "/notifications/read-all" VUndefined);
      (deleteNotification backend a, DELETE ("/notifications/" +:+ toString a));
      (submitFeedback backend a, POST "/feedback" a);
      (canProvideFeedback backend a, GET ("/feedback/can-provide/" +:+ toString a));
      (getFeedbackStats backend, GET "/feedback/stats");
      (getFeedbackStatsByDepartment backend a,
       GET ("/feedback/department/" +:+ toString a +:+ "/stats")) ].
Proof. table_rows backend (fun e : exn => e). Qed.

(** These functions make one call with the method, path and payload listed,
    return the body of an accepted reply, and on failure raise the body of
    the reply when it is truthy and the message string of the error
    otherwise: what the caller catches is never the error object, and the
    status of the reply is not part of it. *)
Theorem payload_raising_endpoints (a b : value) (w : world) :
  Forall (fun '(call, config) => call w = oneCall backend payloadOrMessage config w)
    [ (requestPasswordReset backend a,
       POST "/auth/forgot-password" (VObj [("email", a)]));
      (verifyOTP backend a b,
       POST "/auth/verify-otp" (VObj [("email", a); ("otp", b)]));
      (resetPassword backend a b,
       POST "/auth/reset-password" (VObj [("email", a); ("password", b)]));
      (fetchDepartmentEligibleUsers backend, GET "/users/department-eligible");
      (createDepartment backend a, POST "/departments" a);
      (getDepartmentById backend a, GET ("/departments/" +:+ toString a));
      (updateDepartment backend a b, PUT ("/departments/" +:+ toString a) b);
      (assignUsersToDepartment backend a b,
       POST ("/departments/" +:+ toString a +:+ "/users") (VObj [("userIds", b)]));
      (getDepartmentUsers backend a, GET ("/departments/" +:+ toString a +:+ "/users"));
      (removeUserFromDepartment backend a b,
       DELETE ("/departments/" +:+ toString a +:+ "/users/" +:+ toString b));
      (getComplaints backend a,
       mkRequest "get" "/complaints" (Some (defaultEmpty a)) VUndefined ∅);
      (updateComplaintStatus backend a b,
       PUT ("/complaints/" +:+ toString a +:+ "/status") b);
      (escalateComplaint backend a b,
       POST ("/complaints/" +:+ toString a +:+ "/escalate") b);
      (assignComplaint backend a b,
       PUT ("/complaints/" +:+ toString a +:+ "/assign") b);
      (updateComplaintType backend a b, PUT ("/complaints/types/" +:+ toString a) b);
      (deleteComplaintType backend a, DELETE ("/complaints/types/" +:+ toString a));
      (createWorkflow backend a, POST "/workflows" a);
      (getWorkflows backend, GET "/workflows");
      (getWorkflowById backend a, GET ("/workflows/" +:+ toString a));
      (getWorkflowsByDepartment backend a,
       GET ("/workflows/department/" +:+ toString a));
      (getWorkflowsByComplaintType backend a,
       GET ("/workflows/complaint-type/" +:+ toString a));
      (updateWorkflowStage backend a b,
       PUT ("/workflows/complaint/" +:+ toString a +:+ "/stage") b);
      (updateWorkflow backend a b, PUT ("/workflows/" +:+ toString a) b);
      (deleteWorkflow backend a, DELETE ("/workflows/" +:+ toString a));
      (getWorkflowTemplates backend, GET "/workflows/templates");
      (getWorkflowTemplatesByCategory backend a,
       GET ("/workflows/templates/category/" +:+ toString a));
      (getWorkflowTemplateById backend a, GET ("/workflows/templates/" +:+ toString a));
      (importWorkflowTemplates backend a, POST "/workflows/import-templates" a) ].
Proof. table_rows backend payloadOrMessage. Qed.

Lemma payloadOrMessage_cases (error : exn) :
  payloadOrMessage error
  = Thrown (if truthy (response_data error) then response_data error
            else message_of error).
Proof. reflexivity. Qed.

End Policies.

(** ** Endpoint functions with a policy of their own *)

Section Special.

Variable backend : request -> outcome.

(** [createComplaintType] and [getComplaintTypes] read [error.msg], which no
    error of the client has: when the call fails without a reply, or with a
    reply whose body is falsy, they raise [undefined]. *)
Theorem complaint_type_errors_may_be_undefined (typeData : value) (w : world) :
  let raised (config : request) :=
    match backend (outgoing w config) with
    | Replied r =>
        if accepted r then Returned (data r)
        else Raised (Thrown (if truthy (data r) then data r else VUndefined))
    | NoResponse _ => Raised (Thrown VUndefined)
    end in
  snd (createComplaintType backend typeData w)
  = raised (POST "/complaints/types" typeData)
  /\ snd (getComplaintTypes backend w) = raised (GET "/complaints/types").
Proof.
  intros raised. subst raised.
  split; autounfold with endpoints;
    rewrite (oneCall_spec backend payloadOrMsg); unfold oneCall;
    destruct (backend _) as [r|m]; try reflexivity;
    destruct (accepted r); reflexivity.
Qed.

Lemma serverMsgOr_truthy (fallback : string) (error : exn) :
  fallback <> "" -> raisesTruthy (Raised (serverMsgOr fallback error)).
Proof.
  intros Hne. unfold serverMsgOr, logicalOr. simpl.
  destruct (truthy (optMember (response_data error) "msg")) eqn:E; [exact E|].
  now apply truthy_string.
Qed.

(** [getComplaintById], [fetchComplaintComments] and [addCommentToComplaint]
    raise the [msg] member of the reply when it is truthy and a fixed
    sentence otherwise: whatever they raise is a truthy value, never an
    error object and never undefined. *)
Theorem complaint_detail_errors_are_truthy (id commentData : value) (w : world) :
  raisesTruthy (snd (getComplaintById backend id w))
  /\ raisesTruthy (snd (fetchComplaintComments backend id w))
  /\ raisesTruthy (snd (addCommentToComplaint backend id commentData w)).
Proof.
  repeat split; autounfold with endpoints;
    rewrite (oneCall_spec backend (serverMsgOr _)); unfold oneCall;
    (destruct (backend _) as [r|m];
     [ destruct (accepted r); [exact I|] | ]);
    now apply serverMsgOr_truthy.
Qed.

(** [getAllDepartments] turns a reply with status 403 into an error with a
    fixed permission message and raises every other failure unchanged. *)
Theorem departments_forbidden (w : world) :
  snd (getAllDepartments backend w)
  = match backend (outgoing w (GET "/departments")) with
    | Replied r =>
        if accepted r then Returned (data r)
        else if status r =? 403
             then Raised (Error "You do not have permission to view departments")
             else Raised (statusError r)
    | NoResponse message => Raised (AxiosError message None)
    end.
Proof.
  unfold getAllDepartments. call_cases backend w r m Hacc; try reflexivity.
  unfold statusIs. simpl. now destruct (status r =? 403).
Qed.

(** [deleteDepartment] raises an [Error] in every failure: its message is
    the [msg] member of the reply when that is truthy, and the message of
    the failed call otherwise. *)
Theorem delete_department_error (id : value) (w : world) :
  snd (deleteDepartment backend id w)
  = match backend (outgoing w (DELETE ("/departments/" +:+ toString id))) with
    | Replied r =>
        if accepted r then Returned (data r)
        else if truthy (optMember (data r) "msg")
             then Raised (newError (optMember (data r) "msg"))
             else Raised (Error ("Request failed with status code "
                                 +:+ pretty (status r)))
    | NoResponse message => Raised (Error message)
    end.
Proof.
  autounfold with endpoints.
  rewrite (oneCall_spec backend
             (fun e => newError (logicalOr (optMember (response_data e) "msg")
                                           (message_of e)))).
  unfold oneCall. destruct (backend _) as [r|m]; [|reflexivity].
  destruct (accepted r); [reflexivity|].
  unfold logicalOr, response_data. simpl.
  now destruct (truthy (optMember (data r) "msg")).
Qed.

(** [registerOrganization] returns only bodies with a truthy
    [organizationId], and whatever it raises is an [Error]: the error of
    the call itself never reaches the caller. *)
Theorem register_organization_results (organizationData : value) (w : world) :
  match snd (registerOrganization backend organizationData w) with
  | Returned d => truthy (optMember d "organizationId") = true
  | Raised (Error _) => True
  | Raised _ => False
  end.
Proof.
  rewrite registerOrganization_outcomes.
  destruct (backend _) as [r|m]; [|exact I].
  destruct (accepted r).
  - now destruct (truthy (optMember (data r) "organizationId")) eqn:E.
  - now destruct (truthy (optMember (data r) "msg")).
Qed.

(** [getUnreadNotificationCount] returns the [count] member of an accepted
    reply, undefined when the body has none, and raises a TypeError when
    the body is null or undefined. *)
Theorem unread_count (w : world) :
  snd (getUnreadNotificationCount backend w)
  = match backend (outgoing w (GET "/notifications/unread-count")) with
    | Replied r =>
        if accepted r then
          match data r with
          | VUndefined | VNull => Raised (TypeError "count")
          | VObj fields => Returned (assoc "count" fields)
          | _ => Returned VUndefined
          end
        else Raised (statusError r)
    | NoResponse message => Raised (AxiosError message None)
    end.
Proof.
  unfold getUnreadNotificationCount. call_cases backend w r m Hacc; try reflexivity.
  unfold read. now destruct (data r).
Qed.

End Special.

(** ** Request shaping *)

Section Shaping.

Variable backend : request -> outcome.

(** [createComplaint] sends exactly one POST to [/complaints] whose
    Content-Type is [multipart/form-data] for a [FormData] payload and
    [application/json] for any other; the header of the request wins over
    the one of the instance, and the Authorization header is still the one
    of the stored token. *)
Theorem create_complaint_content_type (complaintData : complaintPayload) (w : world) :
  exists req,
    wire (fst (createComplaint backend complaintData w)) = wire w ++ [req]
    /\ method req = "post" /\ url req = "/complaints"
    /\ body req = payloadBody complaintData
    /\ headers req !! "Content-Type"
       = Some (match complaintData with
               | FormData _ => "multipart/form-data"
               | Plain _ => "application/json"
               end)
    /\ headers req !! "Authorization"
       = headers (outgoing w (POST "/complaints" VUndefined)) !! "Authorization".
Proof.
  unfold createComplaint. rewrite tryCatch_rethrow. unfold bind, API_postWith.
  match goal with
  | |- context [API_request backend ?c w] =>
      exists (outgoing w c);
      pose proof (API_request_wire backend w c) as Hw;
      pose proof (outgoing_line w c) as (Hm & Hu & _ & Hb);
      pose proof (outgoing_authorization w c) as Ha;
      pose proof (outgoing_content_type w c) as Hc;
      destruct (API_request backend c w) as [w1 [r|e]]
  end.
  all: pose proof (outgoing_authorization w (POST "/complaints" VUndefined)) as Ha';
    rewrite merged_authorization in Ha, Ha';
    simpl headers in Ha, Ha', Hc;
    rewrite lookup_singleton_ne in Ha by discriminate;
    rewrite lookup_empty in Ha';
    rewrite lookup_singleton_eq in Hc;
    repeat split; try assumption; congruence.
Qed.

Lemma assoc_setMember (k k' : string) (v : value) (fields : list (string * value)) :
  assoc k (setMember k' v fields) = if String.eqb k k' then v else assoc k fields.
Proof.
  induction fields as [|[k0 v0] rest IH]; simpl.
  - reflexivity.
  - destruct (String.eqb_spec k' k0) as [->|Hne]; simpl.
    + now destruct (String.eqb k k0).
    + destruct (String.eqb_spec k k0) as [->|]; [|exact IH].
      destruct (String.eqb_spec k0 k'); congruence.
Qed.

Lemma hasMember_false_assoc (k : string) (fields : list (string * value)) :
  hasMember k fields = false -> assoc k fields = VUndefined.
Proof.
  induction fields as [|[k0 v0] rest IH]; simpl; [reflexivity|].
  rewrite String.eqb_sym. destruct (String.eqb k k0); simpl; [discriminate | exact IH].
Qed.

Lemma assoc_spread (k : string) (fields literal : list (string * value)) :
  NoDup (map fst fields) ->
  assoc k (spread literal (VObj fields))
  = if hasMember k fields then assoc k fields else assoc k literal.
Proof.
  unfold spread. simpl ownEntries.
  revert literal. induction fields as [|[k0 v0] rest IH]; intros literal Hnd; simpl.
  - reflexivity.
  - inversion Hnd as [|? ? Hnotin Hrest]; subst.
    rewrite (IH _ Hrest), assoc_setMember. rewrite (String.eqb_sym k0 k).
    destruct (String.eqb_spec k k0) as [->|Hne]; simpl; [|reflexivity].
    destruct (hasMember k0 rest) eqn:Hin; [|reflexivity].
    exfalso. apply Hnotin. unfold hasMember in Hin.
    apply existsb_exists in Hin as ([k1 v1] & Hin & Heq). simpl in Heq.
    apply String.eqb_eq in Heq as ->. apply list_elem_of_In.
    now apply (in_map fst) in Hin.
Qed.

(** [createWorkflowFromTemplate] writes [templateId] first and spreads the
    customizations over it: a [templateId] member of the customizations
    replaces the argument in the body that is sent, and every member of the
    customizations is in the body. *)
Theorem template_id_can_be_overridden
    (templateId : value) (fields : list (string * value)) (w : world) :
  NoDup (map fst fields) ->
  exists req,
    wire (fst (createWorkflowFromTemplate backend templateId (VObj fields) w))
    = wire w ++ [req]
    /\ url req = "/workflows/from-template"
    /\ optMember (body req) "templateId"
       = (if hasMember "templateId" fields then assoc "templateId" fields
          else templateId)
    /\ forall k, hasMember k fields = true ->
                 optMember (body req) k = assoc k fields.
Proof.
  intros Hnd. autounfold with endpoints.
  match goal with
  | |- context [API_request backend ?c] =>
      exists (outgoing w c); rewrite (oneCall_spec backend payloadOrMessage c w);
      pose proof (outgoing_line w c) as (_ & Hu & _ & Hb)
  end.
  split.
  - unfold oneCall. destruct (backend _) as [r|m]; [|reflexivity].
    destruct (accepted r); [reflexivity|]. now destruct (status r =? 401).
  - split; [exact Hu|]. rewrite Hb. unfold optMember. simpl.
    split; [|intros k Hk]; rewrite (assoc_spread _ _ _ Hnd); [reflexivity|].
    now rewrite Hk.
Qed.

(** Without customizations the body is the [templateId] alone. *)
Lemma template_without_customizations (templateId : value) :
  spread [("templateId", templateId)] VUndefined = [("templateId", templateId)]
  /\ spread [("templateId", templateId)] VNull = [("templateId", templateId)]
  /\ spread [("templateId", templateId)] (VObj []) = [("templateId", templateId)].
Proof. repeat split. Qed.

(** [fetchAddressSuggestions] calls the geocoding service on the bare
    library: the request carries no header of the instance, in particular
    not the stored token; whatever the reply, 401 included, storage,
    default headers and location stay as they were; the result is the
    [results] member of an accepted reply, and every failure raises the same
    fixed error. *)
Theorem address_lookup_is_isolated
    (REACT_APP_OPENCAGE_API_KEY : option string) (input : value) (w : world) :
  let req :=
    mkRequest "get" OPENCAGE_API_URL
              (Some (VObj [("q", input);
                           ("key", match REACT_APP_OPENCAGE_API_KEY with
                                   | Some k => VStr k
                                   | None => VUndefined
                                   end);
                           ("limit", VNum 5)]))
              VUndefined ∅ in
  let failed := Raised (Error "Failed to fetch address suggestions. Please try again.") in
  fetchAddressSuggestions backend REACT_APP_OPENCAGE_API_KEY input w
  = (sent w req,
     match backend req with
     | Replied r =>
         if accepted r then
           match member (data r) "results" with
           | Some results => Returned results
           | None => failed
           end
         else failed
     | NoResponse _ => failed
     end).
Proof.
  intros req failed. subst req failed.
  unfold fetchAddressSuggestions, axios_get, tryCatch, bind, send, sent, read.
  destruct (backend _) as [r|m]; [|reflexivity].
  cbv beta iota. destruct (accepted r); [|reflexivity].
  simpl. destruct (member (data r) "results"); reflexivity.
Qed.

End Shaping.

Lemma template_id_can_be_overridden_witness :
  let backend := fun _ : request => Replied (mkResponse 201 (VObj [])) in
  exists req,
    wire (fst (createWorkflowFromTemplate backend (VNum 7)
                 (VObj [("name", VStr "Intake"); ("templateId", VNum 9)])
                 (mkWorld ∅ ∅ [] [])))
    = [req]
    /\ optMember (body req) "templateId" = VNum 9
    /\ optMember (body req) "name" = VStr "Intake".
Proof.
  intros backend.
  destruct (template_id_can_be_overridden backend (VNum 7)
              [("name", VStr "Intake"); ("templateId", VNum 9)]
              (mkWorld ∅ ∅ [] []))
    as (req & Hwire & _ & Hid & Hall).
  - apply (bool_decide_unpack _). vm_compute. exact I.
  - exists req. split; [exact Hwire|]. split; [exact Hid|].
    apply Hall. reflexivity.
Defined.

(** ** The session across calls *)

Section Session.

Variable backend : request -> outcome.

Lemma bearer_token_header (w : world) (config : request) (t : string) :
  localStorage w !! "token" = Some ("Bearer " +:+ t) ->
  headers (outgoing w config) !! "Authorization" = Some ("Bearer " +:+ t).
Proof.
  intros Ht. rewrite outgoing_authorization, Ht. simpl.
  unfold authorizationValue.
  now rewrite (prefix_append "Bearer " t).
Qed.

(** [loginUser] either returns a session, and then every later request of
    the instance carries exactly the token of that session as its
    Authorization header; or it raises, and then it has written nothing:
    the storage is as before, or, after a reply with status 401, as before
    without the [token] and [user] entries. *)
Theorem login_session_effect (email password organizationId : value) (w : world) :
  let w' := fst (loginUser backend email password organizationId w) in
  match snd (loginUser backend email password organizationId w) with
  | Returned session =>
      exists t,
        optMember session "token" = VStr t
        /\ localStorage w' !! "token" = Some t
        /\ forall config, headers (outgoing w' config) !! "Authorization" = Some t
  | Raised _ =>
      localStorage w' = localStorage w
      \/ localStorage w' = delete "user" (delete "token" (localStorage w))
  end.
Proof.
  intros w'. subst w'.
  destruct (loginUser backend email password organizationId w) as [w' res] eqn:Hrun.
  unfold loginUser in Hrun. rewrite tryCatch_rethrow in Hrun.
  unfold bind, API_post in Hrun. rewrite API_request_run in Hrun.
  destruct (backend _) as [r|m].
  - destruct (accepted r) eqn:Hacc.
    + rewrite settle_accepted in Hrun by exact Hacc.
      unfold read in Hrun.
      destruct (data r) as [| |b|n|s|fields]; simpl in Hrun;
        injection Hrun as <- <-; simpl;
        try (left; reflexivity);
        (eexists; split; [reflexivity|];
         split; [apply lookup_insert_eq|];
         intros config; apply bearer_token_header; apply lookup_insert_eq).
    + rewrite settle_rejected in Hrun by exact Hacc.
      injection Hrun as <- <-.
      destruct (status r =? 401); simpl; [right | left]; reflexivity.
  - rewrite settle_no_response in Hrun. injection Hrun as <- <-.
    simpl. left. reflexivity.
Qed.

Lemma logoutUser_storage (w : world) :
  localStorage (fst (logoutUser backend w)) !! "token" = None
  /\ defaultsCommon (fst (logoutUser backend w)) !! "Authorization" = None.
Proof.
  assert (Hgone : forall m : gmap string string,
             delete "user" (delete "token" m) !! "token" = None).
  { intros m. rewrite lookup_delete_ne by discriminate. apply lookup_delete_eq. }
  unfold logoutUser. call_cases backend w r m Hacc.
  - simpl. split; [apply Hgone | apply lookup_delete_eq].
  - destruct (status r =? 401); simpl; (split; [apply Hgone | apply lookup_delete_eq]).
  - simpl. split; [apply Hgone | apply lookup_delete_eq].
Qed.

(** After [logoutUser], whether the remote call succeeded or not, a request
    of the instance carries an Authorization header only if the request
    itself sets one. *)
Theorem logout_then_request (w : world) (config : request) :
  headers (outgoing (fst (logoutUser backend w)) config) !! "Authorization"
  = headers config !! "Authorization".
Proof.
  destruct (logoutUser_storage w) as [Ht Hd].
  rewrite outgoing_authorization, Ht, merged_authorization, Hd.
  now destruct (headers config !! "Authorization").
Qed.

(** The feedback lists read members of their [params] before they call:
    with [null] they raise a TypeError and send nothing; with a value that
    has no members (a number, a string, a boolean, or undefined, which the
    default replaces by an empty object) they send the bare path. *)
Theorem feedback_params_edge (departmentId params : value) (w : world) :
  match params with
  | VObj _ => True
  | VNull =>
      getAllFeedback backend params w = (w, Raised (TypeError "page"))
      /\ getFeedbackByDepartment backend departmentId params w
         = (w, Raised (TypeError "page"))
  | _ =>
      wire (fst (getAllFeedback backend params w))
      = wire w ++ [outgoing w (GET "/feedback?")]
      /\ wire (fst (getFeedbackByDepartment backend departmentId params w))
         = wire w ++ [outgoing w (GET ("/feedback/department/"
                                       +:+ toString departmentId +:+ "?"))]
  end.
Proof.
  destruct params; try exact I; try (split; reflexivity);
    (split;
     [ unfold getAllFeedback | unfold getFeedbackByDepartment ];
     rewrite tryCatch_rethrow;
     cbv [defaultEmpty appendIfSet read member bind ret API_get assoc truthy];
     cbn [URLSearchParams_toString];
     match goal with
     | |- context [API_request backend ?c w] =>
         pose proof (API_request_wire backend w c) as H;
         destruct (API_request backend c w) as [w1 [a|e]]; exact H
     end).
Qed.

End Session.

(** ** Encoding of names and values *)

Lemma hexDigit_cases (n : N) :
  (n < 16)%N ->
  In (hexDigit n)
     ["0"; "1"; "2"; "3"; "4"; "5"; "6"; "7"; "8"; "9";
      "A"; "B"; "C"; "D"; "E"; "F"]%char.
Proof.
  intros H.
  assert (Hn : In n [0; 1; 2; 3; 4; 5; 6; 7; 8; 9; 10; 11; 12; 13; 14; 15]%N).
  { simpl. lia. }
  simpl in Hn.
  repeat (destruct Hn as [<-|Hn]; [simpl; tauto|]). contradiction.
Qed.

Lemma hexDigit_of_byte (c : ascii) :
  (N_of_ascii c / 16 < 16)%N /\ (N_of_ascii c mod 16 < 16)%N.
Proof.
  pose proof (N_ascii_bounded c). split.
  - apply N.Div0.div_lt_upper_bound. lia.
  - apply N.mod_lt. lia.
Qed.

Lemma occurrences_app (c : ascii) (s1 s2 : string) :
  occurrences c (s1 +:+ s2) = (occurrences c s1 + occurrences c s2)%nat.
Proof. induction s1 as [|a s1 IH]; simpl; [reflexivity | rewrite IH; lia]. Qed.

(** A character that is neither kept by the encoder nor produced by it
    does not occur in the output. *)
Lemma occurrences_formEncode (c : ascii) (s : string) :
  formSafe c = false -> c <> "+"%char -> c <> "%"%char ->
  occurrences c (formEncode s) = 0%nat.
Proof.
  intros Hsafe Hplus Hpct. induction s as [|a s IH]; simpl; [reflexivity|].
  destruct (hexDigit_of_byte a) as [Hhi Hlo].
  apply hexDigit_cases in Hhi, Hlo.
  assert (Hhex : forall h,
             In h ["0"; "1"; "2"; "3"; "4"; "5"; "6"; "7"; "8"; "9";
                   "A"; "B"; "C"; "D"; "E"; "F"]%char -> Ascii.eqb c h = false).
  { intros h Hh. destruct (Ascii.eqb_spec c h) as [->|]; [|reflexivity].
    simpl in Hh. repeat (destruct Hh as [<-|Hh]; [discriminate Hsafe|]).
    contradiction. }
  destruct (formSafe a) eqn:Ea; [|destruct (N_of_ascii a =? 32)%N]; simpl;
    rewrite ?IH, ?(Hhex _ Hhi), ?(Hhex _ Hlo).
  - destruct (Ascii.eqb_spec c a) as [->|]; [congruence | reflexivity].
  - destruct (Ascii.eqb_spec c "+"); [contradiction | reflexivity].
  - destruct (Ascii.eqb_spec c "%"); [contradiction | reflexivity].
Qed.

Lemma occurrences_encodeURIComponent (c : ascii) (s : string) :
  uriUnreserved c = false -> c <> "%"%char ->
  occurrences c (encodeURIComponent s) = 0%nat.
Proof.
  intros Hsafe Hpct. induction s as [|a s IH]; simpl; [reflexivity|].
  destruct (hexDigit_of_byte a) as [Hhi Hlo].
  apply hexDigit_cases in Hhi, Hlo.
  assert (Hhex : forall h,
             In h ["0"; "1"; "2"; "3"; "4"; "5"; "6"; "7"; "8"; "9";
                   "A"; "B"; "C"; "D"; "E"; "F"]%char -> Ascii.eqb c h = false).
  { intros h Hh. destruct (Ascii.eqb_spec c h) as [->|]; [|reflexivity].
    simpl in Hh. repeat (destruct Hh as [<-|Hh]; [discriminate Hsafe|]).
    contradiction. }
  destruct (uriUnreserved a) eqn:Ea; simpl;
    rewrite ?IH, ?(Hhex _ Hhi), ?(Hhex _ Hlo).
  - destruct (Ascii.eqb_spec c a) as [->|]; [congruence | reflexivity].
  - destruct (Ascii.eqb_spec c "%"); [contradiction | reflexivity].
Qed.

(** The query string built by [URLSearchParams] has one [=] per entry and
    one [&] between two entries, whatever characters the names and values
    contain: a value cannot add or end a parameter. *)
Lemma query_string_separators (entries : list (string * string)) :
  occurrences "=" (URLSearchParams_toString entries) = length entries
  /\ occurrences "&" (URLSearchParams_toString entries) = pred (length entries)
  /\ occurrences "#" (URLSearchParams_toString entries) = 0%nat
  /\ occurrences " " (URLSearchParams_toString entries) = 0%nat.
Proof.
  induction entries as [|[k v] rest IH]; [repeat split|].
  destruct IH as (IHeq & IHamp & IHhash & IHsp).
  destruct rest as [|kv rest'].
  - simpl. rewrite !occurrences_app. simpl.
    rewrite !occurrences_formEncode by (reflexivity || discriminate).
    repeat split.
  - change (URLSearchParams_toString ((k, v) :: kv :: rest'))
      with (formEncode k +:+ "=" +:+ formEncode v +:+ "&"
            +:+ URLSearchParams_toString (kv :: rest')).
    rewrite !occurrences_app, IHeq, IHamp, IHhash, IHsp. simpl.
    rewrite !occurrences_formEncode by (reflexivity || discriminate).
    repeat split.
Qed.

(** [checkOrganizationName] puts the encoded name into the path as one
    segment: no slash, question mark or hash of the name reaches the
    request. *)
Theorem organization_name_is_one_segment
    (backend : request -> outcome) (name : value) (w : world) :
  exists req segment,
    wire (fst (checkOrganizationName backend name w)) = wire w ++ [req]
    /\ url req = "/organizations/check-name/" +:+ segment
    /\ occurrences "/" segment = 0%nat
    /\ occurrences "?" segment = 0%nat
    /\ occurrences "#" segment = 0%nat.
Proof.
  unfold checkOrganizationName. rewrite tryCatch_rethrow. unfold bind, API_get.
  match goal with
  | |- context [API_request backend ?c w] =>
      exists (outgoing w c), (encodeURIComponent (toString name));
      pose proof (API_request_wire backend w c) as Hw;
      pose proof (outgoing_line w c) as (_ & Hu & _);
      destruct (API_request backend c w) as [w1 [r|e]]
  end.
  all: repeat split; try assumption;
    apply occurrences_encodeURIComponent; (reflexivity || discriminate).
Qed.

(** * Further properties of the application server *)

(** ** The routing table *)





(** The second file leaves no request without a handler. *)
Theorem second_file_handles_every_request
    (files : string -> string -> bool) (NODE_ENV : option string) (m path : string) :
  is_Some (dispatch files (app2 NODE_ENV) m path).
Proof.
  unfold app2, routeMounts. cbn [app dispatch answers].
  repeat match goal with
         | |- context [if ?c then _ else _] => destruct c; [now eexists|]
         end.
  destruct (decide (NODE_ENV = Some "production")); cbn [app dispatch answers];
    repeat match goal with
           | |- context [if ?c then _ else _] => destruct c; [now eexists|]
           end;
    now eexists.
Qed.

(** ** The body of the error middleware, and the client that reads it *)

Lemma logicalOr_fallback_truthy (a fallback : value) :
  truthy fallback = true -> truthy (logicalOr a fallback) = true.
Proof. intros H. unfold logicalOr. now destruct (truthy a) eqn:E. Qed.

Lemma errorHandler_body (NODE_ENV : option string) (err : value) (r : reply) :
  errorHandler NODE_ENV err = Some r ->
  exists message stack,
    truthy message = true
    /\ truthy (statusCode r) = true
    /\ jsonBody r = stringifyMembers [("message", message); ("error", stack)].
Proof.
  unfold errorHandler. intros H.
  destruct (member err "status") as [st|]; [|discriminate].
  destruct (member err "message") as [msg|]; [|discriminate].
  cbn [mbind option_bind] in H.
  destruct (if decide (NODE_ENV = Some "development")
            then member err "stack" else Some VUndefined) as [stack|];
    [|discriminate].
  cbn [mbind option_bind] in H. injection H as <-.
  exists (logicalOr msg (VStr "Something went wrong!")), stack.
  repeat split; now apply logicalOr_fallback_truthy.
Qed.

(** Whenever the error middleware answers, the status it sets and the
    [message] member of the body are truthy, and the body has no member
    other than [message] and [error]. *)
Theorem error_reply_is_complete (NODE_ENV : option string) (err : value) :
  truthy err = true ->
  exists r,
    errorHandler NODE_ENV err = Some r
    /\ truthy (statusCode r) = true
    /\ truthy (assoc "message" (jsonBody r)) = true
    /\ forall k, hasMember k (jsonBody r) = true -> k = "message" \/ k = "error".
Proof.
  intros Herr.
  destruct (errorHandler NODE_ENV err) as [r|] eqn:Hrun.
  - destruct (errorHandler_body _ _ _ Hrun) as (message & stack & Hm & Hs & Hbody).
    exists r. split; [reflexivity|]. split; [exact Hs|]. rewrite Hbody.
    split.
    + destruct message; try discriminate Hm; destruct stack; exact Hm.
    + intros k. rewrite stringify_reply by (intros ->; discriminate Hm).
      unfold hasMember.
      destruct stack; cbn [existsb fst]; rewrite ?orb_false_r; intros Hk;
        repeat (apply orb_true_iff in Hk as [Hk|Hk]);
        apply String.eqb_eq in Hk; auto.
  - exfalso. unfold errorHandler in Hrun.
    rewrite !(member_truthy err) in Hrun by exact Herr.
    now destruct (decide (NODE_ENV = Some "development")).
Qed.

Lemma error_reply_is_complete_witness :
  exists r,
    errorHandler (Some "production") (VStr "boom") = Some r
    /\ truthy (statusCode r) = true
    /\ truthy (assoc "message" (jsonBody r)) = true.
Proof.
  destruct (error_reply_is_complete (Some "production") (VStr "boom"))
    as (r & Hrun & Hs & Hm & _).
  - reflexivity.
  - exists r. repeat split; assumption.
Defined.

Section ClientOfMiddleware.

Variable backend : request -> outcome.

(** The error middleware names its text [message]; the client looks for
    [msg].  When a rejected reply carries a body made by the middleware,
    [getComplaintById], [deleteDepartment] and [registerOrganization] do
    not find the text of the server and raise their own fallback. *)
Theorem middleware_message_is_not_read
    (NODE_ENV : option string) (err : value) (answer : reply)
    (id : value) (w : world) (r : response) :
  errorHandler NODE_ENV err = Some answer ->
  data r = VObj (jsonBody answer) ->
  accepted r = false ->
  (backend (outgoing w (GET ("/complaints/" +:+ toString id))) = Replied r ->
   snd (getComplaintById backend id w)
   = Raised (Thrown (VStr "Failed to fetch complaint details")))
  /\ (backend (outgoing w (DELETE ("/departments/" +:+ toString id))) = Replied r ->
      snd (deleteDepartment backend id w)
      = Raised (Error ("Request failed with status code " +:+ pretty (status r))))
  /\ (backend (outgoing w (POST "/organizations/register" id)) = Replied r ->
      snd (registerOrganization backend id w)
      = Raised (Error "Failed to register organization. Please try again.")).
Proof.
  intros Hrun Hdata Hacc.
  assert (Hmsg : optMember (data r) "msg" = VUndefined).
  { destruct (errorHandler_body _ _ _ Hrun) as (message & stack & _ & _ & Hbody).
    rewrite Hdata, Hbody. destruct message, stack; reflexivity. }
  repeat split; intros Hreply.
  - autounfold with endpoints. rewrite (oneCall_spec backend (serverMsgOr _)).
    unfold oneCall. rewrite Hreply, Hacc. unfold serverMsgOr, response_data.
    simpl. now rewrite Hmsg.
  - autounfold with endpoints.
    rewrite (oneCall_spec backend
               (fun e => newError (logicalOr (optMember (response_data e) "msg")
                                             (message_of e)))).
    unfold oneCall. rewrite Hreply, Hacc. unfold response_data. simpl.
    now rewrite Hmsg.
  - rewrite registerOrganization_outcomes, Hreply, Hacc. now rewrite Hmsg.
Qed.

End ClientOfMiddleware.

Lemma middleware_message_is_not_read_witness :
  let r := mkResponse 500 (VObj [("message", VStr "boom")]) in
  let backend := fun _ : request => Replied r in
  let w := mkWorld ∅ ∅ [] [] in
  snd (getComplaintById backend (VNum 3) w)
  = Raised (Thrown (VStr "Failed to fetch complaint details"))
  /\ snd (deleteDepartment backend (VNum 3) w)
     = Raised (Error "Request failed with status code 500")
  /\ snd (registerOrganization backend (VNum 3) w)
     = Raised (Error "Failed to register organization. Please try again.").
Proof.
  intros r backend w.
  destruct (middleware_message_is_not_read backend (Some "production")
              (VObj [("message", VStr "boom")])
              (mkReply (VNum 500) [("message", VStr "boom")])
              (VNum 3) w r)
    as (Hget & Hdel & Hreg).
  - reflexivity.
  - reflexivity.
  - reflexivity.
  - split; [apply Hget; reflexivity|].
    split; [apply Hdel; reflexivity | apply Hreg; reflexivity].
Defined.

(** * Further properties of request construction *)

(** Whatever the members of [params] contain, the query that
    [getAllFeedback] sends has at most four parameters and no fragment:
    separators inside a value are encoded and cannot add a parameter. *)
Theorem feedback_query_is_bounded
    (backend : request -> outcome) (fields : list (string * value)) (w : world) :
  exists req query,
    wire (fst (getAllFeedback backend (VObj fields) w)) = wire w ++ [req]
    /\ url req = "/feedback?" +:+ query
    /\ (occurrences "=" query <= 4)%nat
    /\ (occurrences "&" query <= 3)%nat
    /\ occurrences "#" query = 0%nat
    /\ occurrences " " query = 0%nat.
Proof.
  unfold getAllFeedback. rewrite tryCatch_rethrow.
  cbv [defaultEmpty appendIfSet read member bind ret API_get].
  destruct (truthy (assoc "page" fields)), (truthy (assoc "limit" fields)),
    (truthy (assoc "rating" fields)), (truthy (assoc "department" fields));
    cbn [app];
    match goal with
    | |- context [API_request backend (mkRequest _ (_ +:+ URLSearchParams_toString ?q)
                                                 _ _ _) w] =>
        exists (outgoing w (GET ("/feedback?" +:+ URLSearchParams_toString q))),
               (URLSearchParams_toString q);
        pose proof (API_request_wire backend w
                      (GET ("/feedback?" +:+ URLSearchParams_toString q))) as Hw;
        pose proof (outgoing_line w (GET ("/feedback?" +:+ URLSearchParams_toString q)))
          as (_ & Hu & _);
        destruct (query_string_separators q) as (He & Ha & Hh & Hs);
        destruct (API_request backend _ w) as [w1 [r|e]]
    end;
    (split; [exact Hw|]); (split; [exact Hu|]);
    rewrite He, Ha, Hh, Hs; simpl; repeat split; lia.
Qed.

(** The base URL of the client: [/api] in production, whatever
    [REACT_APP_API_URL] says; elsewhere [REACT_APP_API_URL] as it is when
    it is set and not empty, and the local default when it is unset or
    empty.  In particular the base URL is never empty. *)
Theorem api_base_url (NODE_ENV REACT_APP_API_URL : option string) :
  getApiBaseUrl NODE_ENV REACT_APP_API_URL
  = (if decide (NODE_ENV = Some "production") then "/api"
     else match REACT_APP_API_URL with
          | Some u => if String.eqb u "" then "http://localhost:5000/api" else u
          | None => "http://localhost:5000/api"
          end)
  /\ getApiBaseUrl NODE_ENV REACT_APP_API_URL <> "".
Proof.
  unfold getApiBaseUrl.
  destruct (decide (NODE_ENV = Some "production")); [split; [reflexivity|discriminate]|].
  destruct REACT_APP_API_URL as [u|]; [|split; [reflexivity|discriminate]].
  simpl. destruct (String.eqb_spec u ""); simpl; split; try reflexivity;
    [discriminate | assumption].
Qed.
